(** * kern/trap.c of JOS: trap dispatch, gate table, fast system-call set-up

    A shallow embedding of [src/kern/trap.c].  The kernel's global data
    ([idt], [ts], [gdt], [curenv], the environment array), the trap frame
    pushed on the kernel stack and the processor registers the file reads
    or writes make up an explicit [State].  Calls that leave the file
    ([cprintf], [panic], [syscall], [monitor], [monitor_ss], [env_destroy],
    [env_run]) are recorded, in program order, in a trace of [Event]s.

    The first part holds the definitions: the data model, the program
    function by function, the vocabulary of the statements and a concrete
    kernel to run the model on.  The second part holds the properties. *)

From Stdlib Require Import ZArith Lia.
From stdpp Require Import base option list strings gmap.

Local Open Scope Z_scope.

(** ** Data model *)

(** [struct PushRegs], in the order [print_regs] walks it. *)
Record PushRegs := mkPushRegs {
  reg_edi : Z; reg_esi : Z; reg_ebp : Z; reg_oesp : Z;
  reg_ebx : Z; reg_edx : Z; reg_ecx : Z; reg_eax : Z
}.

(** [struct Trapframe]: every member [print_trapframe] reads. *)
Record Trapframe := mkTrapframe {
  tf_regs : PushRegs;
  tf_es : Z; tf_ds : Z;
  tf_trapno : Z; tf_err : Z;
  tf_eip : Z; tf_cs : Z; tf_eflags : Z;
  tf_esp : Z; tf_ss : Z
}.

(** [struct Env], restricted to the members trap.c touches. *)
Record Env := mkEnv {
  env_tf : Trapframe;
  env_id : Z;
  env_status : Z
}.

(** Modelled from the spec: [struct Gatedesc] of inc/mmu.h is not among the
    sources.  Section 3 of the specification lists the fields of a gate
    descriptor: target code selector, target offset, descriptor type and the
    privilege level required to invoke it by software. *)
Record Gatedesc := mkGatedesc {
  gd_sel : Z; gd_off : Z; gd_type : Z; gd_dpl : Z
}.

(** [struct Taskstate], restricted to the two members trap.c assigns. *)
Record Taskstate := mkTaskstate { ts_esp0 : Z; ts_ss0 : Z }.

(** Modelled from the spec: [struct Segdesc] and the [SEG16] initialiser of
    inc/mmu.h are not among the sources; a segment descriptor is kept as the
    four arguments of [SEG16] together with the [sd_s] bit trap.c clears. *)
Record Segdesc := mkSegdesc {
  sd_type : Z; sd_base : Z; sd_lim : Z; sd_dpl : Z; sd_s : Z
}.

(** [struct Pseudodesc]: limit and base handed to [lidt]. *)
Record Pseudodesc := mkPseudodesc { pd_lim : Z; pd_base : Z }.

(** A [struct Env *]: [None] is the null pointer, [Some i] points at slot
    [i] of the environment array. *)
Definition envptr := option nat.

(** A [struct Trapframe *]: the frame the entry stub pushed on the kernel
    stack, or the [env_tf] member of an environment. *)
Inductive tfptr :=
| OnStack
| InEnv (e : nat).

(** Everything trap.c reads or writes. *)
Record State := mkState {
  idt : list Gatedesc;        (* struct Gatedesc idt[256] *)
  ts : Taskstate;             (* static struct Taskstate ts *)
  gdt : list Segdesc;         (* extern struct Segdesc gdt[] *)
  tr : Z;                     (* task register, loaded by ltr *)
  idtr : Pseudodesc;          (* IDT register, loaded by lidt *)
  msrs : gmap Z Z;            (* model-specific registers, written by wrmsr *)
  dr6 : Z;                    (* debug status register *)
  cr2 : Z;                    (* page-fault linear address *)
  curenv : envptr;            (* struct Env *curenv *)
  envs : list Env;            (* the environment array curenv points into *)
  kstack_tf : Trapframe       (* the frame on the kernel stack *)
}.

Definition with_idt (v : list Gatedesc) (s : State) : State :=
  mkState v (ts s) (gdt s) (tr s) (idtr s) (msrs s) (dr6 s) (cr2 s)
          (curenv s) (envs s) (kstack_tf s).
Definition with_ts (v : Taskstate) (s : State) : State :=
  mkState (idt s) v (gdt s) (tr s) (idtr s) (msrs s) (dr6 s) (cr2 s)
          (curenv s) (envs s) (kstack_tf s).
Definition with_gdt (v : list Segdesc) (s : State) : State :=
  mkState (idt s) (ts s) v (tr s) (idtr s) (msrs s) (dr6 s) (cr2 s)
          (curenv s) (envs s) (kstack_tf s).
Definition with_tr (v : Z) (s : State) : State :=
  mkState (idt s) (ts s) (gdt s) v (idtr s) (msrs s) (dr6 s) (cr2 s)
          (curenv s) (envs s) (kstack_tf s).
Definition with_idtr (v : Pseudodesc) (s : State) : State :=
  mkState (idt s) (ts s) (gdt s) (tr s) v (msrs s) (dr6 s) (cr2 s)
          (curenv s) (envs s) (kstack_tf s).
Definition with_msrs (v : gmap Z Z) (s : State) : State :=
  mkState (idt s) (ts s) (gdt s) (tr s) (idtr s) v (dr6 s) (cr2 s)
          (curenv s) (envs s) (kstack_tf s).
Definition with_dr6 (v : Z) (s : State) : State :=
  mkState (idt s) (ts s) (gdt s) (tr s) (idtr s) (msrs s) v (cr2 s)
          (curenv s) (envs s) (kstack_tf s).
Definition with_envs (v : list Env) (s : State) : State :=
  mkState (idt s) (ts s) (gdt s) (tr s) (idtr s) (msrs s) (dr6 s) (cr2 s)
          (curenv s) v (kstack_tf s).
Definition with_kstack_tf (v : Trapframe) (s : State) : State :=
  mkState (idt s) (ts s) (gdt s) (tr s) (idtr s) (msrs s) (dr6 s) (cr2 s)
          (curenv s) (envs s) v.

Definition set_reg_eax (v : Z) (r : PushRegs) : PushRegs :=
  mkPushRegs (reg_edi r) (reg_esi r) (reg_ebp r) (reg_oesp r)
             (reg_ebx r) (reg_edx r) (reg_ecx r) v.
Definition set_tf_regs (r : PushRegs) (f : Trapframe) : Trapframe :=
  mkTrapframe r (tf_es f) (tf_ds f) (tf_trapno f) (tf_err f)
              (tf_eip f) (tf_cs f) (tf_eflags f) (tf_esp f) (tf_ss f).
Definition set_env_tf (f : Trapframe) (e : Env) : Env :=
  mkEnv f (env_id e) (env_status e).

(** ** Machine integers *)

(** Conversion to [uint32_t] and to [int] (two's complement, as gcc does). *)
Definition to_uint32 (z : Z) : Z := z mod 2 ^ 32.
Definition to_int32 (z : Z) : Z := (z + 2 ^ 31) mod 2 ^ 32 - 2 ^ 31.

(** ** Calls that leave trap.c *)

(** One argument of a [cprintf] call. *)
Inductive Arg :=
| Aint (z : Z)
| Astr (s : string)
| Aptr (p : tfptr).

Inductive Event :=
| Ecprintf (fmt : string) (args : list Arg)
| Epanic (msg : string)
| Esyscall (num a1 a2 a3 a4 a5 : Z)
| Emonitor (tf : tfptr)
| Emonitor_ss (tf : tfptr)
| Eenv_destroy (e : envptr)
| Eenv_run (e : envptr).

(** How a piece of kernel code ends. *)
Inductive Exit :=
| Panicked (msg : string)   (* panic(): the system is halted *)
| Resumed (e : envptr)      (* env_run(e): control went back to e *)
| Away                      (* a callee outside trap.c kept control *)
| Fault.                    (* a null or dangling pointer was dereferenced *)

Inductive Outcome (A : Type) :=
| Done (a : A) (s : State)
| Stop (x : Exit) (s : State).
Arguments Done {A} a s.
Arguments Stop {A} x s.

(** Kernel code: a state transformer that also logs its outward calls. *)
Definition M (A : Type) : Type := State -> list Event * Outcome A.

Definition ret {A} (a : A) : M A := fun s => ([], Done a s).

Definition bind {A B} (m : M A) (k : A -> M B) : M B :=
  fun s =>
    match m s with
    | (t, Done a s1) => let '(t', o) := k a s1 in (t ++ t', o)
    | (t, Stop x s1) => (t, Stop x s1)
    end.

Notation "'do' x <- m ; k" := (bind m (fun x => k))
  (at level 10, x name, m at level 100, k at level 200,
   format "'[v' 'do'  x  <-  m ; '/' k ']'").
Notation "'run' m ; k" := (bind m (fun _ => k))
  (at level 10, m at level 100, k at level 200,
   format "'[v' 'run'  m ; '/' k ']'").

Definition get : M State := fun s => ([], Done s s).
Definition modify (f : State -> State) : M unit := fun s => ([], Done tt (f s)).
Definition emit (e : Event) : M unit := fun s => ([e], Done tt s).

(** A call to a collaborator whose code is elsewhere: the call is logged;
    [None] means the collaborator never comes back. *)
Definition extcall {A} (e : Event) (f : State -> option (A * State)) : M A :=
  fun s =>
    match f s with
    | Some (a, s1) => ([e], Done a s1)
    | None => ([e], Stop Away s)
    end.

(** [cprintf] only produces console output. *)
Definition cprintf (fmt : string) (args : list Arg) : M unit :=
  emit (Ecprintf fmt args).

(** [panic] and [env_run] are declared noreturn. *)
Definition panic {A} (msg : string) : M A :=
  fun s => ([Epanic msg], Stop (Panicked msg) s).
Definition env_run {A} (e : envptr) : M A :=
  fun s => ([Eenv_run e], Stop (Resumed e) s).

(** ** Pointers *)

Definition load_env (p : envptr) (s : State) : option Env :=
  match p with
  | Some i => envs s !! i
  | None => None
  end.

Definition load_tf (p : tfptr) (s : State) : option Trapframe :=
  match p with
  | OnStack => Some (kstack_tf s)
  | InEnv i => env_tf <$> envs s !! i
  end.

Definition write_tf (p : tfptr) (f : Trapframe) (s : State) : State :=
  match p with
  | OnStack => with_kstack_tf f s
  | InEnv i => with_envs (alter (set_env_tf f) i (envs s)) s
  end.

(** [*p] for an environment pointer; dereferencing a bad pointer is a
    [Fault]. *)
Definition deref_env (p : envptr) : M Env :=
  fun s =>
    match load_env p s with
    | Some e => ([], Done e s)
    | None => ([], Stop Fault s)
    end.

Definition deref_tf (p : tfptr) : M Trapframe :=
  fun s =>
    match load_tf p s with
    | Some f => ([], Done f s)
    | None => ([], Stop Fault s)
    end.

(** [*p = f] for a frame pointer. *)
Definition store_tf (p : tfptr) (f : Trapframe) : M unit :=
  fun s =>
    match load_tf p s with
    | Some _ => ([], Done tt (write_tf p f s))
    | None => ([], Stop Fault s)
    end.

(** ** What the missing headers and translation units provide *)

(** Constants and link-time addresses trap.c takes from inc/trap.h,
    inc/memlayout.h, inc/mmu.h, inc/env.h and kern/trapentry.S. *)
Class Layout := {
  T_DEBUG : Z; T_BRKPT : Z; T_PGFLT : Z; T_SYSCALL : Z;
  GD_KT : Z; GD_KD : Z; GD_TSS : Z;
  DPL_USER : Z;
  STS_IG32 : Z; STS_TG32 : Z; STS_T32A : Z;
  KSTACKTOP : Z;
  ENV_RUNNABLE : Z;
  vectors : nat -> Z;          (* extern uint32_t vectors[] *)
  sysenter_handler : Z;        (* address of the fast-entry stub *)
  idt_addr : Z;                (* (uint32_t) idt *)
  ts_addr : Z;                 (* (uint32_t) &ts *)
  sizeof_Gatedesc : Z;
  sizeof_Taskstate : Z
}.

(** The collaborators trap.c calls and whose code lives elsewhere. *)
Class Collaborators := {
  syscall : Z -> Z -> Z -> Z -> Z -> Z -> State -> option (Z * State);
  monitor : tfptr -> State -> option (unit * State);
  monitor_ss : tfptr -> State -> option (unit * State);
  env_destroy : envptr -> State -> option (unit * State)
}.

(** ** The program *)

Section Trap.
Context {layout : Layout} {collab : Collaborators}.

(** *** trapname (lines 23-53) *)

Definition excnames : list string :=
  [ "Divide error"; "Debug"; "Non-Maskable Interrupt"; "Breakpoint";
    "Overflow"; "BOUND Range Exceeded"; "Invalid Opcode";
    "Device Not Available"; "Double Fault"; "Coprocessor Segment Overrun";
    "Invalid TSS"; "Segment Not Present"; "Stack Fault";
    "General Protection"; "Page Fault"; "(unknown trap)";
    "x87 FPU Floating-Point Error"; "Alignment Check"; "Machine-Check";
    "SIMD Floating-Point Exception" ]%string.

(** [trapno] is an [int]; the comparison with [sizeof] is unsigned. *)
Definition trapname (trapno : Z) : string :=
  if to_uint32 trapno <? Z.of_nat (length excnames)
  then default "(unknown trap)"%string (excnames !! Z.to_nat (to_uint32 trapno))
  else if trapno =? T_SYSCALL then "System call"%string
  else "(unknown trap)"%string.

(** *** idt_init (lines 56-92) *)

(** Modelled from the spec: the [SETGATE] macro of inc/mmu.h is not among
    the sources.  It assigns every field of [gate]: the selector, the
    offset, the type (trap gate when [istrap] is non-zero, interrupt gate
    otherwise) and the privilege level. *)
Definition SETGATE (gate : Gatedesc) (istrap sel off dpl : Z) : Gatedesc :=
  mkGatedesc sel off (if istrap =? 0 then STS_IG32 else STS_TG32) dpl.

(** Modelled from the spec: the [SEG16] macro of inc/mmu.h is not among the
    sources; a system segment built from type, base, limit and privilege
    level, with the [sd_s] bit set as for an application segment. *)
Definition SEG16 (type base lim dpl : Z) : Segdesc :=
  mkSegdesc type base lim dpl 1.

Definition set_sd_s (v : Z) (d : Segdesc) : Segdesc :=
  mkSegdesc (sd_type d) (sd_base d) (sd_lim d) (sd_dpl d) v.

(** The body of the [for] loop: the [switch (i)] and its [SETGATE]. *)
Definition idt_init_body (i : nat) (tbl : list Gatedesc) : list Gatedesc :=
  if (Z.of_nat i =? T_BRKPT) || (Z.of_nat i =? T_SYSCALL)
  then alter (fun g => SETGATE g 0 GD_KT (vectors i) DPL_USER) i tbl
  else alter (fun g => SETGATE g 0 GD_KT (vectors i) 0) i tbl.

(** [for (; i < 256; i++)]: [n] iterations are left, the next index is [i]. *)
Fixpoint idt_init_loop (n i : nat) (tbl : list Gatedesc) : list Gatedesc :=
  match n with
  | O => tbl
  | S n' => idt_init_loop n' (S i) (idt_init_body i tbl)
  end.

(** [struct Pseudodesc idt_pd = { sizeof(idt) - 1, (uint32_t) idt }]. *)
Definition idt_pd : Pseudodesc :=
  mkPseudodesc (256 * sizeof_Gatedesc - 1) idt_addr.

(** The table [idt] is declared with 256 slots and every index of the loop
    is in range.  [gdt] is declared without a size: it is expected to have
    a slot [GD_TSS >> 3]; on a shorter list the two updates of that slot
    change nothing. *)
Definition idt_init (s : State) : State :=
  let s := with_idt (idt_init_loop 256 0 (idt s)) s in
  let s := with_ts (mkTaskstate KSTACKTOP (ts_ss0 (ts s))) s in
  let s := with_ts (mkTaskstate (ts_esp0 (ts s)) GD_KD) s in
  let tss := Z.to_nat (Z.shiftr GD_TSS 3) in
  let s := with_gdt (<[tss := SEG16 STS_T32A ts_addr sizeof_Taskstate 0]> (gdt s)) s in
  let s := with_gdt (alter (set_sd_s 0) tss (gdt s)) s in
  let s := with_tr GD_TSS s in
  with_idtr idt_pd s.

(** *** print_regs and print_trapframe (lines 94-121) *)

Definition print_regs (regs : PushRegs) : M unit :=
  run cprintf "  edi  0x%08x\n" [Aint (reg_edi regs)];
  run cprintf "  esi  0x%08x\n" [Aint (reg_esi regs)];
  run cprintf "  ebp  0x%08x\n" [Aint (reg_ebp regs)];
  run cprintf "  oesp 0x%08x\n" [Aint (reg_oesp regs)];
  run cprintf "  ebx  0x%08x\n" [Aint (reg_ebx regs)];
  run cprintf "  edx  0x%08x\n" [Aint (reg_edx regs)];
  run cprintf "  ecx  0x%08x\n" [Aint (reg_ecx regs)];
  cprintf "  eax  0x%08x\n" [Aint (reg_eax regs)].

Definition print_trapframe (tf : tfptr) : M unit :=
  run cprintf "TRAP frame at %p\n" [Aptr tf];
  do f <- deref_tf tf;
  run print_regs (tf_regs f);
  run cprintf "  es   0x----%04x\n" [Aint (tf_es f)];
  run cprintf "  ds   0x----%04x\n" [Aint (tf_ds f)];
  run cprintf "  trap 0x%08x %s\n"
        [Aint (tf_trapno f); Astr (trapname (to_int32 (tf_trapno f)))];
  run cprintf "  err  0x%08x\n" [Aint (tf_err f)];
  run cprintf "  eip  0x%08x\n" [Aint (tf_eip f)];
  run cprintf "  cs   0x----%04x\n" [Aint (tf_cs f)];
  run cprintf "  flag 0x%08x\n" [Aint (tf_eflags f)];
  run cprintf "  esp  0x%08x\n" [Aint (tf_esp f)];
  cprintf "  ss   0x----%04x\n" [Aint (tf_ss f)].

(** *** page_fault_handler (lines 208-229) *)

Definition page_fault_handler (tf : tfptr) : M unit :=
  do s <- get;
  let fault_va := cr2 s in
  do e <- deref_env (curenv s);
  do f <- deref_tf tf;
  run cprintf "[%08x] user fault va %08x ip %08x\n"
        [Aint (env_id e); Aint fault_va; Aint (tf_eip f)];
  run print_trapframe tf;
  if tf_cs f =? GD_KT then panic "Page fault in kernel"
  else
    do s <- get;
    extcall (Eenv_destroy (curenv s)) (env_destroy (curenv s)).

(** *** trap_dispatch (lines 123-153) *)

Definition trap_dispatch (tf : tfptr) : M unit :=
  do f <- deref_tf tf;
  if tf_trapno f =? T_PGFLT then page_fault_handler tf
  else if tf_trapno f =? T_BRKPT then extcall (Emonitor tf) (monitor tf)
  else if tf_trapno f =? T_DEBUG then extcall (Emonitor_ss tf) (monitor_ss tf)
  else if tf_trapno f =? T_SYSCALL then
    let regs := tf_regs f in
    do ret <- extcall
                (Esyscall (reg_eax regs) (reg_edx regs) (reg_ecx regs)
                          (reg_ebx regs) (reg_edi regs) (reg_esi regs))
                (syscall (reg_eax regs) (reg_edx regs) (reg_ecx regs)
                         (reg_ebx regs) (reg_edi regs) (reg_esi regs));
    do f1 <- deref_tf tf;
    store_tf tf (set_tf_regs (set_reg_eax (to_uint32 ret) (tf_regs f1)) f1)
  else
    run print_trapframe tf;
    if tf_cs f =? GD_KT then panic "unhandled trap in kernel"
    else
      do s <- get;
      extcall (Eenv_destroy (curenv s)) (env_destroy (curenv s)).

(** *** single_step_enabled (lines 155-170) *)

Definition sstep : Z := 0x4000.

Definition single_step_enabled : M Z :=
  do s <- get;
  let d := dr6 s in
  if Z.land d sstep =? 0 then ret 0
  else
    run modify (with_dr6 (Z.land d (to_uint32 (Z.lnot sstep))));
    ret 1.

(** *** trap (lines 172-197) *)

(** Lines 175-186: the frame is copied into [curenv->env_tf] when it comes
    from user mode, after [assert(curenv)]; the result is the pointer the
    rest of [trap] uses. *)
Definition trap_entry (tf : tfptr) : M tfptr :=
  run cprintf "Incoming TRAP frame at %p\n" [Aptr tf];
  do f <- deref_tf tf;
  if Z.land (tf_cs f) 3 =? 3 then
    do s <- get;
    match curenv s with
    | None => panic "assertion failed: curenv"
    | Some i =>
        run store_tf (InEnv i) f;
        ret (InEnv i)
    end
  else ret tf.

(** Lines 191-196: what [trap] does once [trap_dispatch] has returned.  The
    assertion evaluates [curenv] first and reads [env_status] only through
    a non-null pointer. *)
Definition trap_exit : M unit :=
  do ss <- single_step_enabled;
  if ss =? 0 then
    do s <- get;
    match curenv s with
    | None =>
        panic "assertion failed: curenv && curenv->env_status == ENV_RUNNABLE"
    | Some i =>
        do e <- deref_env (Some i);
        if env_status e =? ENV_RUNNABLE then env_run (Some i)
        else
          panic "assertion failed: curenv && curenv->env_status == ENV_RUNNABLE"
    end
  else ret tt.

Definition trap (tf : tfptr) : M unit :=
  do tf <- trap_entry tf;
  run trap_dispatch tf;
  trap_exit.

(** *** enable_sep (lines 200-206) *)

(** [wrmsr(msr, lo, hi)]: the register receives [hi:lo]. *)
Definition wrmsr (msr lo hi : Z) (s : State) : State :=
  with_msrs (<[msr := Z.lor (Z.shiftl hi 32) lo]> (msrs s)) s.

Definition enable_sep (s : State) : State :=
  let s := wrmsr 0x174 GD_KT 0 s in
  let s := wrmsr 0x175 KSTACKTOP 0 s in
  wrmsr 0x176 (to_uint32 sysenter_handler) 0 s.

End Trap.

(** ** Vocabulary of the statements *)

(** The frame with [v] stored in its [reg_eax]. *)
Definition with_eax (v : Z) (f : Trapframe) : Trapframe :=
  set_tf_regs (set_reg_eax v (tf_regs f)) f.

(** The call [trap_dispatch] logs for a system-call frame. *)
Definition syscall_event (f : Trapframe) : Event :=
  Esyscall (reg_eax (tf_regs f)) (reg_edx (tf_regs f)) (reg_ecx (tf_regs f))
           (reg_ebx (tf_regs f)) (reg_edi (tf_regs f)) (reg_esi (tf_regs f)).

(** Every member of a trap frame, in declaration order. *)
Definition frame_words (f : Trapframe) : list Z :=
  [ reg_edi (tf_regs f); reg_esi (tf_regs f); reg_ebp (tf_regs f);
    reg_oesp (tf_regs f); reg_ebx (tf_regs f); reg_edx (tf_regs f);
    reg_ecx (tf_regs f); reg_eax (tf_regs f);
    tf_es f; tf_ds f; tf_trapno f; tf_err f; tf_eip f; tf_cs f;
    tf_eflags f; tf_esp f; tf_ss f ].

(** [v] is an argument of one of the console lines of [t]. *)
Definition printed (v : Z) (t : list Event) : Prop :=
  exists fmt args, Ecprintf fmt args ∈ t /\ Aint v ∈ args.

(** The line [trap] prints on entry. *)
Definition incoming (tf : tfptr) : Event :=
  Ecprintf "Incoming TRAP frame at %p\n" [Aptr tf].

Definition assert_runnable : string :=
  "assertion failed: curenv && curenv->env_status == ENV_RUNNABLE".

(** The line [page_fault_handler] prints first. *)
Definition user_fault_line (e : Env) (s : State) (f : Trapframe) : Event :=
  Ecprintf "[%08x] user fault va %08x ip %08x\n"
    [Aint (env_id e); Aint (cr2 s); Aint (tf_eip f)].

Section Vocabulary.
Context {layout : Layout} {collab : Collaborators}.

(** The descriptor [idt_init] writes for trap number [i]. *)
Definition gate_of (i : nat) : Gatedesc :=
  mkGatedesc GD_KT (vectors i) STS_IG32
    (if (Z.of_nat i =? T_BRKPT) || (Z.of_nat i =? T_SYSCALL)
     then DPL_USER else 0).

(** The console lines [print_trapframe] produces for frame [f] at [tf]. *)
Definition frame_dump (tf : tfptr) (f : Trapframe) : list Event :=
  [ Ecprintf "TRAP frame at %p\n" [Aptr tf];
    Ecprintf "  edi  0x%08x\n" [Aint (reg_edi (tf_regs f))];
    Ecprintf "  esi  0x%08x\n" [Aint (reg_esi (tf_regs f))];
    Ecprintf "  ebp  0x%08x\n" [Aint (reg_ebp (tf_regs f))];
    Ecprintf "  oesp 0x%08x\n" [Aint (reg_oesp (tf_regs f))];
    Ecprintf "  ebx  0x%08x\n" [Aint (reg_ebx (tf_regs f))];
    Ecprintf "  edx  0x%08x\n" [Aint (reg_edx (tf_regs f))];
    Ecprintf "  ecx  0x%08x\n" [Aint (reg_ecx (tf_regs f))];
    Ecprintf "  eax  0x%08x\n" [Aint (reg_eax (tf_regs f))];
    Ecprintf "  es   0x----%04x\n" [Aint (tf_es f)];
    Ecprintf "  ds   0x----%04x\n" [Aint (tf_ds f)];
    Ecprintf "  trap 0x%08x %s\n"
      [Aint (tf_trapno f); Astr (trapname (to_int32 (tf_trapno f)))];
    Ecprintf "  err  0x%08x\n" [Aint (tf_err f)];
    Ecprintf "  eip  0x%08x\n" [Aint (tf_eip f)];
    Ecprintf "  cs   0x----%04x\n" [Aint (tf_cs f)];
    Ecprintf "  flag 0x%08x\n" [Aint (tf_eflags f)];
    Ecprintf "  esp  0x%08x\n" [Aint (tf_esp f)];
    Ecprintf "  ss   0x----%04x\n" [Aint (tf_ss f)] ].

(** The labels of the [switch] in [trap_dispatch]; C requires them to be
    pairwise distinct. *)
Definition case_labels : list Z := [T_PGFLT; T_BRKPT; T_DEBUG; T_SYSCALL].

(** The call to [env_destroy(curenv)] and how it ends. *)
Definition destroy_curenv (s : State) : list Event * Outcome unit :=
  extcall (Eenv_destroy (curenv s)) (env_destroy (curenv s)) s.

End Vocabulary.

Ltac find_line :=
  (apply list_elem_of_here) + (apply list_elem_of_further; find_line).

(** ** A concrete kernel *)

(** Sample values for the constants: the x86 trap numbers and the selectors
    and type codes of a JOS kernel, with arbitrary addresses for the entry
    stubs and the tables. *)
Definition jos_layout : Layout := {|
  T_DEBUG := 1; T_BRKPT := 3; T_PGFLT := 14; T_SYSCALL := 48;
  GD_KT := 0x08; GD_KD := 0x10; GD_TSS := 0x28;
  DPL_USER := 3;
  STS_IG32 := 0xE; STS_TG32 := 0xF; STS_T32A := 0x9;
  KSTACKTOP := 0xefc00000;
  ENV_RUNNABLE := 1;
  vectors := fun i => 0xf0103000 + 10 * Z.of_nat i;
  sysenter_handler := 0xf0104000;
  idt_addr := 0xf0118000;
  ts_addr := 0xf0118800;
  sizeof_Gatedesc := 8;
  sizeof_Taskstate := 104
|}.

(** Collaborators to run the model with: [syscall] answers -3 (-E_INVAL),
    the monitor entry points return, [env_destroy] keeps control. *)
Definition jos_collab : Collaborators := {|
  syscall := fun _ _ _ _ _ _ s => Some (-3, s);
  monitor := fun _ s => Some (tt, s);
  monitor_ss := fun _ s => Some (tt, s);
  env_destroy := fun _ _ => None
|}.

Definition zero_regs : PushRegs := mkPushRegs 0 0 0 0 0 0 0 0.
Definition zero_frame : Trapframe := mkTrapframe zero_regs 0 0 0 0 0 0 0 0 0.

(** A frame with the given trap number, code segment and registers. *)
Definition frame_of (trapno cs : Z) (regs : PushRegs) : Trapframe :=
  mkTrapframe regs 0x23 0x23 trapno 0 0x800020 cs 0x202 0xeebfdfd0 0x23.

Definition sample_regs : PushRegs := mkPushRegs 5 6 0 0 4 2 3 1.

(** The kernel before any environment exists: zeroed tables, no current
    environment, and [f] on the kernel stack. *)
Definition boot_state (f : Trapframe) : State :=
  mkState (replicate 256 (mkGatedesc 0 0 0 0)) (mkTaskstate 0 0)
          (replicate 6 (mkSegdesc 0 0 0 0 0)) 0 (mkPseudodesc 0 0)
          ∅ 0 0xdeadbeef None [] f.

(** The kernel running environment 1 of two, with [f] on the kernel stack
    and [d] in DR6. *)
Definition running_state (d : Z) (f : Trapframe) : State :=
  mkState (replicate 256 (mkGatedesc 0 0 0 0)) (mkTaskstate 0 0)
          (replicate 6 (mkSegdesc 0 0 0 0 0)) 0 (mkPseudodesc 0 0)
          ∅ d 0xdeadbeef (Some 1%nat)
          [mkEnv zero_frame 0x1000 1; mkEnv zero_frame 0x1001 1] f.

(** ** Vocabulary of the further properties *)

(** [P] holds of every call a piece of kernel code logs, from any state. *)
Definition logs_only (P : Event -> Prop) {A} (m : M A) : Prop :=
  forall s, Forall P (m s).1.

(** The event is console output. *)
Definition console (ev : Event) : Prop :=
  exists fmt args, ev = Ecprintf fmt args.

(** The event is not a call to [env_run]. *)
Definition not_env_run (ev : Event) : Prop :=
  forall e, ev <> Eenv_run e.

(** The state in which a run ends. *)
Definition final_state {A} (o : Outcome A) : State :=
  match o with
  | Done _ s => s
  | Stop _ s => s
  end.

(** Collaborators that all come back: [syscall] answers its first argument
    plus one, the monitor entry points return at once, and [env_destroy]
    returns with the state as it found it. *)
Definition returning_collab : Collaborators := {|
  syscall := fun n _ _ _ _ _ s => Some (n + 1, s);
  monitor := fun _ s => Some (tt, s);
  monitor_ss := fun _ s => Some (tt, s);
  env_destroy := fun _ s => Some (tt, s)
|}.

(** Collaborators whose [syscall] keeps control, as a call that ends the
    calling environment does. *)
Definition exiting_collab : Collaborators := {|
  syscall := fun _ _ _ _ _ _ _ => None;
  monitor := fun _ s => Some (tt, s);
  monitor_ss := fun _ s => Some (tt, s);
  env_destroy := fun _ _ => None
|}.

(** The boot state with a table full of stale descriptors. *)
Definition stale_state : State :=
  with_idt (replicate 256 (mkGatedesc 1 2 3 4)) (boot_state zero_frame).

(** * Properties *)

(** ** The gate table *)

Section GateTable.
Context {layout : Layout}.

(** Two states with the same components are the same state. *)
Lemma State_eq (s1 s2 : State) :
  idt s1 = idt s2 -> ts s1 = ts s2 -> gdt s1 = gdt s2 -> tr s1 = tr s2 ->
  idtr s1 = idtr s2 -> msrs s1 = msrs s2 -> dr6 s1 = dr6 s2 ->
  cr2 s1 = cr2 s2 -> curenv s1 = curenv s2 -> envs s1 = envs s2 ->
  kstack_tf s1 = kstack_tf s2 -> s1 = s2.
Proof. destruct s1, s2; simpl; intros; subst; reflexivity. Qed.

Lemma idt_init_body_alter i tbl :
  idt_init_body i tbl = alter (fun _ => gate_of i) i tbl.
Proof.
  unfold idt_init_body, gate_of, SETGATE.
  destruct ((Z.of_nat i =? T_BRKPT) || (Z.of_nat i =? T_SYSCALL)); reflexivity.
Qed.

Lemma idt_init_loop_length n i tbl :
  length (idt_init_loop n i tbl) = length tbl.
Proof.
  revert i tbl. induction n as [|n IH]; intros i tbl; simpl; [reflexivity|].
  rewrite IH, idt_init_body_alter. apply length_alter.
Qed.

(** Loop invariant: the slots [i .. i+n-1] hold their gate, the others are
    as before. *)
Lemma idt_init_loop_lookup n i tbl (j : nat) :
  idt_init_loop n i tbl !! j =
  if bool_decide (i <= j < i + n)%nat
  then (fun _ => gate_of j) <$> tbl !! j
  else tbl !! j.
Proof.
  revert i tbl. induction n as [|n IH]; intros i tbl; simpl.
  - rewrite bool_decide_eq_false_2 by lia. reflexivity.
  - rewrite IH, idt_init_body_alter.
    destruct (decide (i = j)) as [->|Hne].
    + rewrite list_lookup_alter_eq.
      rewrite (bool_decide_eq_false_2 (S j <= j < _)%nat) by lia.
      rewrite bool_decide_eq_true_2 by lia. reflexivity.
    + rewrite list_lookup_alter_ne by assumption.
      destruct (decide (S i <= j < S i + n)%nat).
      * rewrite !bool_decide_eq_true_2 by lia. reflexivity.
      * rewrite !bool_decide_eq_false_2 by lia. reflexivity.
Qed.

Lemma idt_init_idt s : idt (idt_init s) = idt_init_loop 256 0 (idt s).
Proof. reflexivity. Qed.

Lemma idt_init_loop_twice n tbl :
  idt_init_loop n 0 (idt_init_loop n 0 tbl) = idt_init_loop n 0 tbl.
Proof.
  apply list_eq; intros j.
  rewrite !idt_init_loop_lookup.
  case_bool_decide; [|reflexivity].
  destruct (tbl !! j); reflexivity.
Qed.

(** C5: started on a 256-entry table, [idt_init] leaves a 256-entry table
    whose slot [i], for every trap number [i] in 0..255, is the interrupt
    gate on the kernel code selector pointing at [vectors i], with privilege
    level 0, except for [T_BRKPT] and [T_SYSCALL], which get [DPL_USER]; and
    the task state holds [KSTACKTOP] and [GD_KD]. *)
Theorem idt_init_gates (s : State) :
  length (idt s) = 256%nat ->
  length (idt (idt_init s)) = 256%nat /\
  (forall i : nat, (i < 256)%nat ->
     idt (idt_init s) !! i =
     Some {| gd_sel := GD_KT; gd_off := vectors i; gd_type := STS_IG32;
             gd_dpl := if (Z.of_nat i =? T_BRKPT) || (Z.of_nat i =? T_SYSCALL)
                       then DPL_USER else 0 |}) /\
  ts_esp0 (ts (idt_init s)) = KSTACKTOP /\
  ts_ss0 (ts (idt_init s)) = GD_KD.
Proof.
  intros Hlen. rewrite idt_init_idt. repeat split.
  - rewrite idt_init_loop_length. exact Hlen.
  - intros i Hi. rewrite idt_init_loop_lookup.
    rewrite bool_decide_eq_true_2 by lia.
    destruct (lookup_lt_is_Some_2 (idt s) i) as [g Hg]; [lia|].
    rewrite Hg. reflexivity.
Qed.

Lemma idt_init_gdt s :
  gdt (idt_init s) =
  alter (set_sd_s 0) (Z.to_nat (Z.shiftr GD_TSS 3))
    (<[Z.to_nat (Z.shiftr GD_TSS 3) :=
         SEG16 STS_T32A ts_addr sizeof_Taskstate 0]> (gdt s)).
Proof. reflexivity. Qed.

Lemma idt_init_ts s : ts (idt_init s) = mkTaskstate KSTACKTOP GD_KD.
Proof. reflexivity. Qed.

Lemma idt_init_regs s :
  tr (idt_init s) = GD_TSS /\ idtr (idt_init s) = idt_pd.
Proof. split; reflexivity. Qed.

(** [idt_init] leaves the rest of the state alone. *)
Lemma idt_init_frame s :
  msrs (idt_init s) = msrs s /\ dr6 (idt_init s) = dr6 s /\
  cr2 (idt_init s) = cr2 s /\ curenv (idt_init s) = curenv s /\
  envs (idt_init s) = envs s /\ kstack_tf (idt_init s) = kstack_tf s.
Proof. repeat split; reflexivity. Qed.

Lemma gdt_tss_twice (i : nat) (d : Segdesc) (f : Segdesc -> Segdesc)
      (l : list Segdesc) :
  alter f i (<[i := d]> (alter f i (<[i := d]> l))) = alter f i (<[i := d]> l).
Proof.
  apply list_eq; intros j.
  destruct (decide (i = j)) as [->|Hne].
  - rewrite !list_lookup_alter_eq.
    destruct (decide (j < length l)%nat) as [Hlt|Hge].
    + rewrite !list_lookup_insert_eq
        by (rewrite ?length_alter, ?length_insert; lia).
      reflexivity.
    + rewrite (list_insert_ge (alter f j _))
        by (rewrite length_alter, length_insert; lia).
      rewrite list_lookup_alter_eq.
      rewrite (list_insert_ge l) by lia.
      rewrite (lookup_ge_None_2 l j) by lia. reflexivity.
  - rewrite !list_lookup_alter_ne, !list_lookup_insert_ne by assumption.
    rewrite list_lookup_alter_ne, list_lookup_insert_ne by assumption.
    reflexivity.
Qed.

(** C7: running [idt_init] a second time changes nothing: the descriptor
    table, and indeed the whole state, is the one the first run produced. *)
Theorem idt_init_idempotent (s : State) :
  idt (idt_init (idt_init s)) = idt (idt_init s) /\
  (forall i : nat, idt (idt_init (idt_init s)) !! i = idt (idt_init s) !! i) /\
  idt_init (idt_init s) = idt_init s.
Proof.
  assert (Hidt : idt (idt_init (idt_init s)) = idt (idt_init s)).
  { rewrite !idt_init_idt. apply idt_init_loop_twice. }
  split; [exact Hidt|]. split; [intros i; rewrite Hidt; reflexivity|].
  destruct (idt_init_regs s) as (Htr & Hidtr).
  destruct (idt_init_regs (idt_init s)) as (Htr' & Hidtr').
  destruct (idt_init_frame (idt_init s)) as (Hm & Hd & Hc & Hcur & He & Hk).
  apply State_eq; try congruence.
  - rewrite !idt_init_ts. reflexivity.
  - rewrite !idt_init_gdt. apply gdt_tss_twice.
Qed.

End GateTable.

(** ** Running kernel code *)

Lemma bind_Done {A B} (m : M A) (k : A -> M B) s t a s1 :
  m s = (t, Done a s1) ->
  bind m k s = (t ++ (k a s1).1, (k a s1).2).
Proof. unfold bind. intros ->. destruct (k a s1); reflexivity. Qed.

Lemma bind_Stop {A B} (m : M A) (k : A -> M B) s t x s1 :
  m s = (t, Stop x s1) -> bind m k s = (t, Stop x s1).
Proof. unfold bind. intros ->. reflexivity. Qed.

Lemma deref_tf_Some tf f s :
  load_tf tf s = Some f -> deref_tf tf s = ([], Done f s).
Proof. unfold deref_tf. intros ->. reflexivity. Qed.

Lemma deref_env_Some p e s :
  load_env p s = Some e -> deref_env p s = ([], Done e s).
Proof. unfold deref_env. intros ->. reflexivity. Qed.

Lemma deref_env_null s : deref_env None s = ([], Stop Fault s).
Proof. reflexivity. Qed.

Section Dump.
Context {layout : Layout}.

Lemma print_trapframe_run tf f s :
  load_tf tf s = Some f ->
  print_trapframe tf s = (frame_dump tf f, Done tt s).
Proof.
  intros Hf. unfold print_trapframe, print_regs, cprintf, emit, bind.
  rewrite (deref_tf_Some _ _ _ Hf). reflexivity.
Qed.

End Dump.

Section Handlers.
Context {layout : Layout} {collab : Collaborators}.

Lemma frame_dump_full tf f :
  Forall (fun v => printed v (frame_dump tf f)) (frame_words f).
Proof.
  unfold frame_words, frame_dump.
  repeat apply Forall_cons_2; try apply Forall_nil_2.
  all: solve [eexists _, _; split; [find_line | idtac]; apply list_elem_of_here].
Qed.

Lemma destroy_curenv_trace s :
  (destroy_curenv s).1 = [Eenv_destroy (curenv s)].
Proof.
  unfold destroy_curenv, extcall.
  destruct (env_destroy (curenv s) s) as [[[] s1]|]; reflexivity.
Qed.

Lemma destroy_curenv_outcome s :
  (destroy_curenv s).2 =
  match env_destroy (curenv s) s with
  | Some (_, s1) => Done tt s1
  | None => Stop Away s
  end.
Proof.
  unfold destroy_curenv, extcall.
  destruct (env_destroy (curenv s) s) as [[[] s1]|]; reflexivity.
Qed.

Lemma frame_dump_no_run tf f e : Eenv_run e ∉ frame_dump tf f.
Proof.
  unfold frame_dump. intros Hin. apply list_elem_of_In in Hin.
  simpl in Hin. intuition discriminate.
Qed.

Lemma frame_dump_no_panic tf f msg : Epanic msg ∉ frame_dump tf f.
Proof.
  unfold frame_dump. intros Hin. apply list_elem_of_In in Hin.
  simpl in Hin. intuition discriminate.
Qed.

(** The default arm of [trap_dispatch]. *)
Lemma trap_dispatch_default tf f s :
  load_tf tf s = Some f ->
  tf_trapno f <> T_PGFLT -> tf_trapno f <> T_BRKPT ->
  tf_trapno f <> T_DEBUG -> tf_trapno f <> T_SYSCALL ->
  trap_dispatch tf s =
  if tf_cs f =? GD_KT
  then (frame_dump tf f ++ [Epanic "unhandled trap in kernel"],
        Stop (Panicked "unhandled trap in kernel") s)
  else (frame_dump tf f ++ (destroy_curenv s).1, (destroy_curenv s).2).
Proof.
  intros Hf H1 H2 H3 H4. unfold trap_dispatch.
  rewrite (bind_Done _ _ _ _ _ _ (deref_tf_Some _ _ _ Hf)).
  apply Z.eqb_neq in H1, H2, H3, H4. rewrite H1, H2, H3, H4.
  rewrite (bind_Done _ _ _ _ _ _ (print_trapframe_run _ _ _ Hf)).
  destruct (tf_cs f =? GD_KT); [reflexivity|].
  unfold destroy_curenv, bind, get, extcall.
  destruct (env_destroy (curenv s) s) as [[[] s1]|]; reflexivity.
Qed.

(** C1, as amended: a trap that is neither a page fault, a breakpoint, a
    debug trap nor a system call makes [trap_dispatch] print every member of
    the frame and then panic when the saved code segment equals the kernel
    code selector [GD_KT]; for every other saved code segment, and so for
    every one whose privilege bits are 3 (user mode), it calls
    [env_destroy(curenv)] and never [env_run].  What decides is the
    comparison of the whole selector with [GD_KT], not its privilege bits
    alone. *)
Theorem trap_dispatch_unhandled (tf : tfptr) (f : Trapframe) (s : State) :
  load_tf tf s = Some f ->
  tf_trapno f <> T_PGFLT -> tf_trapno f <> T_BRKPT ->
  tf_trapno f <> T_DEBUG -> tf_trapno f <> T_SYSCALL ->
  print_trapframe tf s = (frame_dump tf f, Done tt s) /\
  Forall (fun v => printed v (frame_dump tf f)) (frame_words f) /\
  (tf_cs f = GD_KT ->
     trap_dispatch tf s =
       (frame_dump tf f ++ [Epanic "unhandled trap in kernel"],
        Stop (Panicked "unhandled trap in kernel") s)) /\
  (tf_cs f <> GD_KT ->
     trap_dispatch tf s =
       (frame_dump tf f ++ [Eenv_destroy (curenv s)],
        match env_destroy (curenv s) s with
        | Some (_, s1) => Done tt s1
        | None => Stop Away s
        end) /\
     (forall e, Eenv_run e ∉ (trap_dispatch tf s).1) /\
     (forall e s1, (trap_dispatch tf s).2 <> Stop (Resumed e) s1)) /\
  (Z.land GD_KT 3 <> 3 -> Z.land (tf_cs f) 3 = 3 -> tf_cs f <> GD_KT) /\
  (Z.land GD_KT 3 <> 3 -> Z.land (tf_cs f) 3 = 3 ->
     trap_dispatch tf s =
       (frame_dump tf f ++ [Eenv_destroy (curenv s)],
        match env_destroy (curenv s) s with
        | Some (_, s1) => Done tt s1
        | None => Stop Away s
        end)).
Proof.
  intros Hf H1 H2 H3 H4.
  pose proof (trap_dispatch_default tf f s Hf H1 H2 H3 H4) as Hd.
  split; [apply print_trapframe_run; exact Hf|].
  split; [apply frame_dump_full|].
  assert (Hdes : tf_cs f <> GD_KT ->
                 trap_dispatch tf s =
                   (frame_dump tf f ++ [Eenv_destroy (curenv s)],
                    match env_destroy (curenv s) s with
                    | Some (_, s1) => Done tt s1
                    | None => Stop Away s
                    end)).
  { intros Hu. apply Z.eqb_neq in Hu. rewrite Hu in Hd.
    rewrite destroy_curenv_trace, destroy_curenv_outcome in Hd. exact Hd. }
  split; [|split; [|split;
    [intros Hk Hu E; rewrite E in Hu; contradiction
    |intros Hk Hu; apply Hdes; intros E; rewrite E in Hu; contradiction]]].
  - intros Hk. apply Z.eqb_eq in Hk. rewrite Hk in Hd. exact Hd.
  - intros Hu. apply Z.eqb_neq in Hu. rewrite Hu in Hd.
    rewrite destroy_curenv_trace, destroy_curenv_outcome in Hd.
    rewrite Hd. split; [reflexivity|]. split.
    + intros e Hin. cbn [fst] in Hin.
      apply elem_of_app in Hin as [Hin|Hin].
      * exact (frame_dump_no_run _ _ _ Hin).
      * apply list_elem_of_singleton in Hin. discriminate.
    + intros e s1. cbn [snd].
      destruct (env_destroy (curenv s) s) as [[[] s2]|]; discriminate.
Qed.

(** *** Page faults *)

Lemma page_fault_handler_run tf f i e s :
  curenv s = Some i -> envs s !! i = Some e -> load_tf tf s = Some f ->
  page_fault_handler tf s =
  if tf_cs f =? GD_KT
  then (user_fault_line e s f :: frame_dump tf f ++
          [Epanic "Page fault in kernel"],
        Stop (Panicked "Page fault in kernel") s)
  else (user_fault_line e s f :: frame_dump tf f ++ (destroy_curenv s).1,
        (destroy_curenv s).2).
Proof.
  intros Hc He Hf.
  assert (Hl : load_env (curenv s) s = Some e) by (rewrite Hc; exact He).
  unfold page_fault_handler, bind, get, cprintf, emit.
  rewrite (deref_env_Some _ _ _ Hl), (deref_tf_Some _ _ _ Hf),
    (print_trapframe_run _ _ _ Hf).
  destruct (tf_cs f =? GD_KT); [reflexivity|].
  unfold destroy_curenv, extcall.
  destruct (env_destroy (curenv s) s) as [[[] s1]|]; reflexivity.
Qed.

Lemma page_fault_handler_null tf s :
  curenv s = None -> page_fault_handler tf s = ([], Stop Fault s).
Proof.
  intros Hc. unfold page_fault_handler.
  unfold bind at 1. cbn [get]. rewrite Hc.
  rewrite (bind_Stop _ _ _ _ _ _ (deref_env_null s)). reflexivity.
Qed.

Lemma trap_dispatch_pgflt tf f s :
  load_tf tf s = Some f -> tf_trapno f = T_PGFLT ->
  trap_dispatch tf s = page_fault_handler tf s.
Proof.
  intros Hf Hno. unfold trap_dispatch.
  rewrite (bind_Done _ _ _ _ _ _ (deref_tf_Some _ _ _ Hf)).
  rewrite Hno, Z.eqb_refl.
  destruct (page_fault_handler tf s); reflexivity.
Qed.

(** C10: whatever the saved code segment, [page_fault_handler] first prints
    the "user fault" line, whose first argument is read through [curenv],
    and the frame dump, and only then looks at the code segment: a kernel
    page fault prints both before it panics.  With no current environment
    the read through [curenv] is a null dereference, and [trap] reaches it
    for a frame that is not from user mode, since only user-mode frames are
    guarded by [assert(curenv)]. *)
Theorem page_fault_prints_before_check (tf : tfptr) (f : Trapframe) (s : State) :
  load_tf tf s = Some f ->
  (forall i e, curenv s = Some i -> envs s !! i = Some e ->
     (exists last,
        (page_fault_handler tf s).1 =
          Ecprintf "[%08x] user fault va %08x ip %08x\n"
            [Aint (env_id e); Aint (cr2 s); Aint (tf_eip f)]
          :: frame_dump tf f ++ [last]) /\
     (tf_cs f = GD_KT ->
        page_fault_handler tf s =
          (Ecprintf "[%08x] user fault va %08x ip %08x\n"
             [Aint (env_id e); Aint (cr2 s); Aint (tf_eip f)]
           :: frame_dump tf f ++ [Epanic "Page fault in kernel"],
           Stop (Panicked "Page fault in kernel") s))) /\
  (curenv s = None -> page_fault_handler tf s = ([], Stop Fault s)) /\
  (curenv s = None -> tf_trapno f = T_PGFLT -> Z.land (tf_cs f) 3 <> 3 ->
     trap tf s =
       ([Ecprintf "Incoming TRAP frame at %p\n" [Aptr tf]], Stop Fault s)).
Proof.
  intros Hf. split; [|split].
  - intros i e Hc He.
    pose proof (page_fault_handler_run tf f i e s Hc He Hf) as Hr.
    unfold user_fault_line in Hr. split.
    + rewrite Hr. destruct (tf_cs f =? GD_KT).
      * eexists. reflexivity.
      * rewrite destroy_curenv_trace. eexists. reflexivity.
    + intros Hk. apply Z.eqb_eq in Hk. rewrite Hk in Hr. exact Hr.
  - apply page_fault_handler_null.
  - intros Hc Hno Hcs. apply Z.eqb_neq in Hcs.
    unfold trap, trap_entry, bind, cprintf, emit, ret.
    rewrite (deref_tf_Some _ _ _ Hf), Hcs.
    rewrite (trap_dispatch_pgflt _ _ _ Hf Hno).
    rewrite (page_fault_handler_null _ _ Hc). reflexivity.
Qed.

(** *** System calls *)

Lemma load_write_tf tf f0 f s :
  load_tf tf s = Some f0 -> load_tf tf (write_tf tf f s) = Some f.
Proof.
  destruct tf as [|i]; simpl; [reflexivity|].
  intros Hl. rewrite list_lookup_alter_eq.
  destruct (envs s !! i); [reflexivity|discriminate].
Qed.

Lemma to_int32_to_uint32 r :
  - 2 ^ 31 <= r < 2 ^ 31 -> to_int32 (to_uint32 r) = r.
Proof.
  intros Hr. unfold to_int32, to_uint32.
  rewrite Zplus_mod_idemp_l.
  rewrite Z.mod_small by lia. lia.
Qed.

Lemma trap_dispatch_syscall tf f s :
  NoDup case_labels -> load_tf tf s = Some f -> tf_trapno f = T_SYSCALL ->
  trap_dispatch tf s =
  match syscall (reg_eax (tf_regs f)) (reg_edx (tf_regs f))
                (reg_ecx (tf_regs f)) (reg_ebx (tf_regs f))
                (reg_edi (tf_regs f)) (reg_esi (tf_regs f)) s with
  | None => ([syscall_event f], Stop Away s)
  | Some (r, s1) =>
      match load_tf tf s1 with
      | Some f1 =>
          ([syscall_event f], Done tt (write_tf tf (with_eax (to_uint32 r) f1) s1))
      | None => ([syscall_event f], Stop Fault s1)
      end
  end.
Proof.
  intros Hnd Hf Hno. unfold case_labels in Hnd.
  assert (T_SYSCALL <> T_PGFLT /\ T_SYSCALL <> T_BRKPT /\ T_SYSCALL <> T_DEBUG)
    as (H1 & H2 & H3).
  { apply NoDup_cons in Hnd as [N1 Hnd]. apply NoDup_cons in Hnd as [N2 Hnd].
    apply NoDup_cons in Hnd as [N3 _].
    repeat split; intros E; [apply N1|apply N2|apply N3]; rewrite <- E;
      repeat first [apply list_elem_of_here | apply list_elem_of_further]. }
  apply Z.eqb_neq in H1, H2, H3.
  unfold trap_dispatch, bind.
  rewrite (deref_tf_Some _ _ _ Hf), Hno, H1, H2, H3, Z.eqb_refl.
  unfold extcall, syscall_event.
  destruct (syscall _ _ _ _ _ _ s) as [[r s1]|]; [|reflexivity].
  unfold deref_tf, with_eax.
  destruct (load_tf tf s1) as [f1|] eqn:Hf1; [|reflexivity].
  unfold store_tf. rewrite Hf1. reflexivity.
Qed.

(** C2: on a system-call frame [trap_dispatch] makes exactly one outward
    call, [syscall(eax, edx, ecx, ebx, edi, esi)] on the frame's registers,
    and when the call returns [r] the frame's [reg_eax] holds [r] (as a
    32-bit word; read back as an [int] it is [r]). *)
Theorem trap_dispatch_syscall_roundtrip (tf : tfptr) (f : Trapframe) (s : State) :
  NoDup case_labels ->
  load_tf tf s = Some f -> tf_trapno f = T_SYSCALL ->
  (trap_dispatch tf s).1 =
    [Esyscall (reg_eax (tf_regs f)) (reg_edx (tf_regs f))
              (reg_ecx (tf_regs f)) (reg_ebx (tf_regs f))
              (reg_edi (tf_regs f)) (reg_esi (tf_regs f))] /\
  (forall r s1 f1,
     syscall (reg_eax (tf_regs f)) (reg_edx (tf_regs f))
             (reg_ecx (tf_regs f)) (reg_ebx (tf_regs f))
             (reg_edi (tf_regs f)) (reg_esi (tf_regs f)) s = Some (r, s1) ->
     load_tf tf s1 = Some f1 ->
     exists s2,
       (trap_dispatch tf s).2 = Done tt s2 /\
       s2 = write_tf tf (with_eax (to_uint32 r) f1) s1 /\
       load_tf tf s2 = Some (with_eax (to_uint32 r) f1) /\
       (reg_eax <$> (tf_regs <$> load_tf tf s2)) = Some (to_uint32 r) /\
       (- 2 ^ 31 <= r < 2 ^ 31 ->
        (to_int32 <$> (reg_eax <$> (tf_regs <$> load_tf tf s2))) = Some r)).
Proof.
  intros Hnd Hf Hno.
  rewrite (trap_dispatch_syscall tf f s Hnd Hf Hno). split.
  - destruct (syscall _ _ _ _ _ _ s) as [[r s1]|]; [|reflexivity].
    destruct (load_tf tf s1); reflexivity.
  - intros r s1 f1 Hsys Hf1. rewrite Hsys, Hf1. cbn [snd].
    eexists. split; [reflexivity|]. split; [reflexivity|].
    rewrite (load_write_tf _ _ _ _ Hf1). split; [reflexivity|].
    split; [reflexivity|].
    intros Hr. cbn. rewrite to_int32_to_uint32 by exact Hr. reflexivity.
Qed.

(** *** Entering and leaving [trap] *)

Lemma trap_entry_user tf f i e s :
  load_tf tf s = Some f -> Z.land (tf_cs f) 3 = 3 ->
  curenv s = Some i -> envs s !! i = Some e ->
  trap_entry tf s =
  ([incoming tf],
   Done (InEnv i) (with_envs (alter (set_env_tf f) i (envs s)) s)).
Proof.
  intros Hf Hcs Hc He. apply Z.eqb_eq in Hcs.
  unfold trap_entry, bind, cprintf, emit, get, ret.
  rewrite (deref_tf_Some _ _ _ Hf), Hcs, Hc.
  unfold store_tf. cbn [load_tf]. rewrite He. reflexivity.
Qed.

Lemma trap_entry_no_curenv tf f s :
  load_tf tf s = Some f -> Z.land (tf_cs f) 3 = 3 -> curenv s = None ->
  trap_entry tf s =
  ([incoming tf; Epanic "assertion failed: curenv"],
   Stop (Panicked "assertion failed: curenv") s).
Proof.
  intros Hf Hcs Hc. apply Z.eqb_eq in Hcs.
  unfold trap_entry, bind, cprintf, emit, get, ret.
  rewrite (deref_tf_Some _ _ _ Hf), Hcs, Hc. reflexivity.
Qed.

Lemma trap_entry_kernel tf f s :
  load_tf tf s = Some f -> Z.land (tf_cs f) 3 <> 3 ->
  trap_entry tf s = ([incoming tf], Done tf s).
Proof.
  intros Hf Hcs. apply Z.eqb_neq in Hcs.
  unfold trap_entry, bind, cprintf, emit, get, ret.
  rewrite (deref_tf_Some _ _ _ Hf), Hcs. reflexivity.
Qed.

(** [trap] after its entry part: dispatch on the rebound pointer, then the
    exit part. *)
Lemma trap_after_entry tf s t0 tf' s0 :
  trap_entry tf s = (t0, Done tf' s0) ->
  trap tf s =
  (t0 ++ ((run trap_dispatch tf'; trap_exit) s0).1,
   ((run trap_dispatch tf'; trap_exit) s0).2).
Proof.
  intros He. unfold trap.
  exact (bind_Done (trap_entry tf)
           (fun p => run trap_dispatch p; trap_exit) s t0 tf' s0 He).
Qed.

Lemma trap_after_dispatch tf s t0 tf' s0 t1 s1 :
  trap_entry tf s = (t0, Done tf' s0) ->
  trap_dispatch tf' s0 = (t1, Done tt s1) ->
  trap tf s = (t0 ++ t1 ++ (trap_exit s1).1, (trap_exit s1).2).
Proof.
  intros He Hd. rewrite (trap_after_entry _ _ _ _ _ He).
  rewrite (bind_Done _ _ _ _ _ _ Hd). reflexivity.
Qed.

(** Bit 14 of DR6 is the single-step flag [sstep]. *)
Lemma sstep_bit d : (Z.land d sstep =? 0) = negb (Z.testbit d 14).
Proof.
  change sstep with (2 ^ 14).
  destruct (Z.testbit d 14) eqn:Hb; simpl.
  - apply Z.eqb_neq. intros Hz.
    assert (Ht : Z.testbit (Z.land d (2 ^ 14)) 14 = true).
    { rewrite Z.land_spec, Hb. reflexivity. }
    rewrite Hz in Ht. discriminate.
  - apply Z.eqb_eq. apply Z.bits_inj'. intros n Hn.
    rewrite Z.land_spec, Z.bits_0, Z.pow2_bits_eqb by lia.
    destruct (Z.eqb_spec 14 n) as [<-|]; [rewrite Hb; reflexivity|].
    apply andb_false_r.
Qed.

Lemma sstep_cleared d (n : Z) :
  0 <= n < 32 ->
  Z.testbit (Z.land d (to_uint32 (Z.lnot sstep))) n =
  if n =? 14 then false else Z.testbit d n.
Proof.
  intros Hn. rewrite Z.land_spec. unfold to_uint32.
  rewrite Z.mod_pow2_bits_low by lia.
  rewrite Z.lnot_spec by lia. change sstep with (2 ^ 14).
  rewrite Z.pow2_bits_eqb by lia. rewrite (Z.eqb_sym 14 n).
  destruct (n =? 14); simpl; [apply andb_false_r|apply andb_true_r].
Qed.

Lemma trap_exit_single_step s :
  Z.testbit (dr6 s) 14 = true ->
  trap_exit s =
  ([], Done tt (with_dr6 (Z.land (dr6 s) (to_uint32 (Z.lnot sstep))) s)).
Proof.
  intros Hb. unfold trap_exit, single_step_enabled, bind, get, modify, ret.
  rewrite sstep_bit, Hb. reflexivity.
Qed.

Lemma trap_exit_resume s i e :
  Z.testbit (dr6 s) 14 = false ->
  curenv s = Some i -> envs s !! i = Some e -> env_status e = ENV_RUNNABLE ->
  trap_exit s = ([Eenv_run (Some i)], Stop (Resumed (Some i)) s).
Proof.
  intros Hb Hc He Hst.
  unfold trap_exit, single_step_enabled, bind, get, modify, ret.
  rewrite sstep_bit, Hb. cbn. rewrite Hc.
  unfold deref_env. cbn. rewrite He, Hst, Z.eqb_refl. reflexivity.
Qed.

Lemma trap_exit_not_runnable s :
  Z.testbit (dr6 s) 14 = false ->
  (curenv s = None \/
   exists i e, curenv s = Some i /\ envs s !! i = Some e /\
               env_status e <> ENV_RUNNABLE) ->
  trap_exit s = ([Epanic assert_runnable], Stop (Panicked assert_runnable) s).
Proof.
  intros Hb Hbad.
  unfold trap_exit, single_step_enabled, bind, get, modify, ret.
  rewrite sstep_bit, Hb. cbn.
  destruct Hbad as [Hc|(i & e & Hc & He & Hst)]; rewrite Hc; [reflexivity|].
  unfold deref_env. cbn. rewrite He.
  apply Z.eqb_neq in Hst. rewrite Hst. reflexivity.
Qed.

(** C6: once [trap_dispatch] has returned, [trap] looks at the single-step
    bit of DR6.  If it is set, [trap] returns, with no further call, a state
    in which that bit of DR6 is clear, the other bits of DR6 are as before
    and nothing else has changed; if it is clear, [trap] calls
    [env_run(curenv)] when [curenv] is runnable and panics on the failed
    assertion otherwise. *)
Theorem trap_single_step (tf tf' : tfptr) (s s0 s1 : State)
        (t0 t1 : list Event) :
  trap_entry tf s = (t0, Done tf' s0) ->
  trap_dispatch tf' s0 = (t1, Done tt s1) ->
  (Z.testbit (dr6 s1) 14 = true ->
     exists s2,
       trap tf s = (t0 ++ t1, Done tt s2) /\
       Z.testbit (dr6 s2) 14 = false /\
       (forall n, 0 <= n < 32 -> n <> 14 ->
          Z.testbit (dr6 s2) n = Z.testbit (dr6 s1) n) /\
       dr6 s2 = Z.land (dr6 s1) 0xFFFFBFFF /\
       idt s2 = idt s1 /\ ts s2 = ts s1 /\ gdt s2 = gdt s1 /\
       tr s2 = tr s1 /\ idtr s2 = idtr s1 /\ msrs s2 = msrs s1 /\
       cr2 s2 = cr2 s1 /\ curenv s2 = curenv s1 /\ envs s2 = envs s1 /\
       kstack_tf s2 = kstack_tf s1) /\
  (Z.testbit (dr6 s1) 14 = false ->
     (forall i e,
        curenv s1 = Some i -> envs s1 !! i = Some e ->
        env_status e = ENV_RUNNABLE ->
        trap tf s =
          (t0 ++ t1 ++ [Eenv_run (Some i)], Stop (Resumed (Some i)) s1)) /\
     ((curenv s1 = None \/
       exists i e, curenv s1 = Some i /\ envs s1 !! i = Some e /\
                   env_status e <> ENV_RUNNABLE) ->
      trap tf s =
        (t0 ++ t1 ++
           [Epanic "assertion failed: curenv && curenv->env_status == ENV_RUNNABLE"],
         Stop (Panicked "assertion failed: curenv && curenv->env_status == ENV_RUNNABLE")
              s1))).
Proof.
  intros He Hd.
  pose proof (trap_after_dispatch _ _ _ _ _ _ _ He Hd) as Ht.
  split.
  - intros Hb. rewrite (trap_exit_single_step _ Hb) in Ht.
    exists (with_dr6 (Z.land (dr6 s1) (to_uint32 (Z.lnot sstep))) s1).
    split; [rewrite Ht; cbn [fst snd]; rewrite app_nil_r; reflexivity|].
    cbn [dr6 with_dr6].
    split; [rewrite sstep_cleared by lia; reflexivity|].
    split.
    + intros n Hn Hne. rewrite sstep_cleared by lia.
      apply Z.eqb_neq in Hne. rewrite Hne. reflexivity.
    + repeat split; reflexivity.
  - intros Hb. split.
    + intros i e Hc Hl Hst.
      rewrite (trap_exit_resume _ _ _ Hb Hc Hl Hst) in Ht. exact Ht.
    + intros Hbad. rewrite (trap_exit_not_runnable _ Hb Hbad) in Ht. exact Ht.
Qed.

(** C4: for a frame from user mode (low two bits of the saved code segment
    equal to 3) and an existing current environment, [trap] copies the frame
    into [curenv->env_tf], changes nothing else, and dispatches on a pointer
    to that copy, so that the return value of a system call is stored in the
    copy and the frame on the stack is not written; for any other frame the
    state is left as it is and dispatch gets the pointer [trap] received. *)
Theorem trap_entry_rebinds (tf : tfptr) (f : Trapframe) (s : State) :
  NoDup case_labels ->
  load_tf tf s = Some f ->
  (Z.land (tf_cs f) 3 = 3 ->
   forall i e, curenv s = Some i -> envs s !! i = Some e ->
     let s0 := with_envs (<[i := set_env_tf f e]> (envs s)) s in
     trap_entry tf s = ([incoming tf], Done (InEnv i) s0) /\
     load_tf (InEnv i) s0 = Some f /\
     trap tf s =
       (incoming tf :: ((run trap_dispatch (InEnv i); trap_exit) s0).1,
        ((run trap_dispatch (InEnv i); trap_exit) s0).2) /\
     (tf_trapno f = T_SYSCALL ->
      forall r s1 e1,
        syscall (reg_eax (tf_regs f)) (reg_edx (tf_regs f))
                (reg_ecx (tf_regs f)) (reg_ebx (tf_regs f))
                (reg_edi (tf_regs f)) (reg_esi (tf_regs f)) s0 = Some (r, s1) ->
        envs s1 !! i = Some e1 ->
        exists s2,
          trap_dispatch (InEnv i) s0 = ([syscall_event f], Done tt s2) /\
          envs s2 !! i = Some (set_env_tf (with_eax (to_uint32 r) (env_tf e1)) e1) /\
          kstack_tf s2 = kstack_tf s1)) /\
  (Z.land (tf_cs f) 3 <> 3 ->
     trap_entry tf s = ([incoming tf], Done tf s) /\
     trap tf s =
       (incoming tf :: ((run trap_dispatch tf; trap_exit) s).1,
        ((run trap_dispatch tf; trap_exit) s).2)).
Proof.
  intros Hnd Hf. split.
  - intros Hcs i e Hc He s0.
    assert (Hs0 : s0 = with_envs (alter (set_env_tf f) i (envs s)) s).
    { unfold s0. rewrite list_insert_alter. f_equal.
      apply list_eq. intros j. rewrite !list_lookup_alter.
      case_decide; [subst j; rewrite He|]; reflexivity. }
    pose proof (trap_entry_user tf f i e s Hf Hcs Hc He) as Hen.
    rewrite <- Hs0 in Hen.
    assert (Hlf : load_tf (InEnv i) s0 = Some f).
    { unfold s0. cbn. rewrite list_lookup_insert_eq; [reflexivity|].
      apply lookup_lt_is_Some. eauto. }
    split; [exact Hen|]. split; [exact Hlf|]. split.
    + rewrite (trap_after_entry _ _ _ _ _ Hen). reflexivity.
    + intros Hno r s1 e1 Hsys He1.
      rewrite (trap_dispatch_syscall _ _ _ Hnd Hlf Hno), Hsys.
      cbn [load_tf]. rewrite He1. cbn [fmap option_fmap option_map].
      eexists. split; [reflexivity|]. split; [|reflexivity].
      cbn. rewrite list_lookup_alter_eq, He1. reflexivity.
  - intros Hcs.
    pose proof (trap_entry_kernel tf f s Hf Hcs) as Hen.
    split; [exact Hen|].
    rewrite (trap_after_entry _ _ _ _ _ Hen). reflexivity.
Qed.

(** C9: [trap] copies a frame to [curenv->env_tf] only when the low two bits
    of the saved code segment are 3, whereas the default arm of
    [trap_dispatch] and [page_fault_handler] panic only when the saved code
    segment is [GD_KT].  A frame whose code segment has privilege bits 0 but
    is not [GD_KT] is therefore not copied, and an unhandled trap or a page
    fault on it ends in [env_destroy(curenv)], without a panic. *)
Theorem privilege_tests_disagree (tf : tfptr) (f : Trapframe) (s : State) :
  load_tf tf s = Some f ->
  Z.land (tf_cs f) 3 = 0 -> tf_cs f <> GD_KT ->
  trap_entry tf s = ([incoming tf], Done tf s) /\
  (tf_trapno f <> T_PGFLT -> tf_trapno f <> T_BRKPT ->
   tf_trapno f <> T_DEBUG -> tf_trapno f <> T_SYSCALL ->
     trap_dispatch tf s =
       (frame_dump tf f ++ [Eenv_destroy (curenv s)],
        match env_destroy (curenv s) s with
        | Some (_, s1) => Done tt s1
        | None => Stop Away s
        end)) /\
  (tf_trapno f = T_PGFLT ->
   forall i e, curenv s = Some i -> envs s !! i = Some e ->
     trap_dispatch tf s =
       (user_fault_line e s f :: frame_dump tf f ++ [Eenv_destroy (Some i)],
        match env_destroy (Some i) s with
        | Some (_, s1) => Done tt s1
        | None => Stop Away s
        end)) /\
  (forall msg, Epanic msg ∉ frame_dump tf f).
Proof.
  intros Hf Hlow Hcs.
  assert (Hnu : Z.land (tf_cs f) 3 <> 3) by lia.
  pose proof (trap_entry_kernel tf f s Hf Hnu) as Hen.
  apply Z.eqb_neq in Hcs.
  split; [exact Hen|]. split; [|split].
  - intros H1 H2 H3 H4.
    rewrite (trap_dispatch_default tf f s Hf H1 H2 H3 H4), Hcs.
    rewrite destroy_curenv_trace, destroy_curenv_outcome. reflexivity.
  - intros Hno i e Hc He.
    rewrite (trap_dispatch_pgflt _ _ _ Hf Hno).
    rewrite (page_fault_handler_run tf f i e s Hc He Hf), Hcs.
    rewrite destroy_curenv_trace, destroy_curenv_outcome, Hc. reflexivity.
  - intros msg. apply frame_dump_no_panic.
Qed.

End Handlers.

(** ** Fast system-call entry *)

Section Sysenter.
Context {layout : Layout}.

(** C8: [enable_sep] sets the three SYSENTER registers, 0x174 to the kernel
    code selector, 0x175 to the kernel stack top and 0x176 to the address of
    [sysenter_handler], and leaves every other model-specific register and
    every other part of the state as it was. *)
Theorem enable_sep_writes (s : State) :
  msrs (enable_sep s) !! 0x174 = Some GD_KT /\
  msrs (enable_sep s) !! 0x175 = Some KSTACKTOP /\
  msrs (enable_sep s) !! 0x176 = Some (to_uint32 sysenter_handler) /\
  (forall m : Z, m <> 0x174 -> m <> 0x175 -> m <> 0x176 ->
     msrs (enable_sep s) !! m = msrs s !! m) /\
  enable_sep s = with_msrs (msrs (enable_sep s)) s.
Proof.
  unfold enable_sep, wrmsr; cbn [msrs with_msrs].
  rewrite !Z.shiftl_0_l, !Z.lor_0_l.
  repeat split.
  - rewrite !lookup_insert_ne by lia. apply lookup_insert_eq.
  - rewrite lookup_insert_ne by lia. apply lookup_insert_eq.
  - apply lookup_insert_eq.
  - intros m H1 H2 H3. rewrite !lookup_insert_ne by congruence. reflexivity.
Qed.

End Sysenter.

(** ** The model on concrete inputs *)

Section Concrete.
#[local] Existing Instance jos_layout.
#[local] Existing Instance jos_collab.

Lemma idt_init_gates_witness :
  length (idt (boot_state zero_frame)) = 256%nat /\
  idt (idt_init (boot_state zero_frame)) !! 3%nat =
    Some (mkGatedesc 0x08 0xf010301e 0xE 3) /\
  idt (idt_init (boot_state zero_frame)) !! 14%nat =
    Some (mkGatedesc 0x08 0xf010308c 0xE 0).
Proof.
  pose proof (idt_init_gates (boot_state zero_frame) eq_refl) as (_ & Hg & _).
  split; [reflexivity|].
  split; [exact (Hg 3%nat ltac:(lia)) | exact (Hg 14%nat ltac:(lia))].
Defined.

Lemma jos_case_labels : NoDup case_labels.
Proof. apply (bool_decide_unpack (NoDup case_labels)). vm_compute. exact I. Qed.

Example trap_user_syscall :
  trap OnStack (running_state 0 (frame_of 48 0x1b sample_regs)) =
  ([incoming OnStack; Esyscall 1 2 3 4 5 6; Eenv_run (Some 1%nat)],
   Stop (Resumed (Some 1%nat))
     (with_envs
        [mkEnv zero_frame 0x1000 1;
         mkEnv (with_eax 0xFFFFFFFD (frame_of 48 0x1b sample_regs)) 0x1001 1]
        (running_state 0 (frame_of 48 0x1b sample_regs)))).
Proof. reflexivity. Qed.

Example trap_user_breakpoint_stepping :
  trap OnStack (running_state 0x4001 (frame_of 3 0x1b sample_regs)) =
  ([incoming OnStack; Emonitor (InEnv 1)],
   Done tt
     (with_dr6 1
        (with_envs
           [mkEnv zero_frame 0x1000 1;
            mkEnv (frame_of 3 0x1b sample_regs) 0x1001 1]
           (running_state 0x4001 (frame_of 3 0x1b sample_regs))))).
Proof. reflexivity. Qed.

Example idt_init_boot :
  gdt (idt_init (boot_state zero_frame)) !! 5%nat =
    Some (mkSegdesc 0x9 0xf0118800 104 0 0) /\
  tr (idt_init (boot_state zero_frame)) = 0x28 /\
  idtr (idt_init (boot_state zero_frame)) = mkPseudodesc 2047 0xf0118000 /\
  idt (idt_init (boot_state zero_frame)) !! 48%nat =
    Some (mkGatedesc 0x08 0xf01031e0 0xE 3) /\
  idt (idt_init (boot_state zero_frame)) !! 256%nat = None.
Proof. repeat split; vm_compute; reflexivity. Qed.

Example enable_sep_boot :
  msrs (enable_sep (boot_state zero_frame)) !! 0x174 = Some 0x08 /\
  msrs (enable_sep (boot_state zero_frame)) !! 0x175 = Some 0xefc00000 /\
  msrs (enable_sep (boot_state zero_frame)) !! 0x176 = Some 0xf0104000 /\
  msrs (enable_sep (boot_state zero_frame)) !! 0x177 = None.
Proof. repeat split; vm_compute; reflexivity. Qed.

Example trap_user_page_fault :
  trap OnStack (running_state 0 (frame_of 14 0x1b sample_regs)) =
  (incoming OnStack
   :: Ecprintf "[%08x] user fault va %08x ip %08x\n"
        [Aint 0x1001; Aint 0xdeadbeef; Aint 0x800020]
   :: frame_dump (InEnv 1) (frame_of 14 0x1b sample_regs) ++
      [Eenv_destroy (Some 1%nat)],
   Stop Away
     (with_envs
        [mkEnv zero_frame 0x1000 1;
         mkEnv (frame_of 14 0x1b sample_regs) 0x1001 1]
        (running_state 0 (frame_of 14 0x1b sample_regs)))).
Proof. vm_compute. reflexivity. Qed.

Example trapname_values :
  trapname 14 = "Page Fault"%string /\ trapname 48 = "System call"%string /\
  trapname 21 = "(unknown trap)"%string /\ trapname (-1) = "(unknown trap)"%string.
Proof. repeat split; reflexivity. Qed.

Lemma trap_dispatch_unhandled_witness :
  trap_dispatch OnStack (running_state 0 (frame_of 13 0x1b sample_regs)) =
    (frame_dump OnStack (frame_of 13 0x1b sample_regs) ++
       [Eenv_destroy (Some 1%nat)],
     Stop Away (running_state 0 (frame_of 13 0x1b sample_regs))) /\
  trap_dispatch OnStack (running_state 0 (frame_of 13 0x08 sample_regs)) =
    (frame_dump OnStack (frame_of 13 0x08 sample_regs) ++
       [Epanic "unhandled trap in kernel"],
     Stop (Panicked "unhandled trap in kernel")
          (running_state 0 (frame_of 13 0x08 sample_regs))).
Proof.
  split.
  - destruct (trap_dispatch_unhandled OnStack (frame_of 13 0x1b sample_regs)
                (running_state 0 (frame_of 13 0x1b sample_regs)) eq_refl)
      as (_ & _ & _ & Hu & _); try (vm_compute; discriminate).
    destruct Hu as (Hu & _); [vm_compute; discriminate|]. exact Hu.
  - destruct (trap_dispatch_unhandled OnStack (frame_of 13 0x08 sample_regs)
                (running_state 0 (frame_of 13 0x08 sample_regs)) eq_refl)
      as (_ & _ & Hk & _ & _); try (vm_compute; discriminate).
    exact (Hk eq_refl).
Defined.

(** C1 as first stated does not hold: two frames with the same unhandled
    trap number and the same saved privilege level 0 are treated
    differently, the one with the kernel code selector 0x08 panics and the
    one with the kernel data selector 0x10 goes to [env_destroy]; so kernel
    privilege in the frame does not imply a panic. *)
Lemma trap_dispatch_not_by_privilege :
  Z.land (tf_cs (frame_of 13 0x08 sample_regs)) 3 = 0 /\
  Z.land (tf_cs (frame_of 13 0x10 sample_regs)) 3 = 0 /\
  (trap_dispatch OnStack (running_state 0 (frame_of 13 0x08 sample_regs))).2 =
    Stop (Panicked "unhandled trap in kernel")
         (running_state 0 (frame_of 13 0x08 sample_regs)) /\
  trap_dispatch OnStack (running_state 0 (frame_of 13 0x10 sample_regs)) =
    (frame_dump OnStack (frame_of 13 0x10 sample_regs) ++
       [Eenv_destroy (Some 1%nat)],
     Stop Away (running_state 0 (frame_of 13 0x10 sample_regs))) /\
  ~ (forall (tf : tfptr) (f : Trapframe) (s : State),
       load_tf tf s = Some f ->
       tf_trapno f <> T_PGFLT -> tf_trapno f <> T_BRKPT ->
       tf_trapno f <> T_DEBUG -> tf_trapno f <> T_SYSCALL ->
       Z.land (tf_cs f) 3 = 0 ->
       exists msg s1, (trap_dispatch tf s).2 = Stop (Panicked msg) s1).
Proof.
  split; [reflexivity|]. split; [reflexivity|].
  split; [vm_compute; reflexivity|]. split; [vm_compute; reflexivity|].
  intros Hall.
  destruct (Hall OnStack (frame_of 13 0x10 sample_regs)
              (running_state 0 (frame_of 13 0x10 sample_regs)) eq_refl)
    as (msg & s1 & Hp);
    [ vm_compute; discriminate | vm_compute; discriminate
    | vm_compute; discriminate | vm_compute; discriminate
    | reflexivity | ].
  vm_compute in Hp. discriminate.
Qed.

Lemma trap_dispatch_syscall_roundtrip_witness :
  (trap_dispatch OnStack (running_state 0 (frame_of 48 0x1b sample_regs))).1 =
    [Esyscall 1 2 3 4 5 6] /\
  exists s2,
    (trap_dispatch OnStack (running_state 0 (frame_of 48 0x1b sample_regs))).2 =
      Done tt s2 /\
    (reg_eax <$> (tf_regs <$> load_tf OnStack s2)) = Some 0xFFFFFFFD /\
    (to_int32 <$> (reg_eax <$> (tf_regs <$> load_tf OnStack s2))) = Some (-3).
Proof.
  destruct (trap_dispatch_syscall_roundtrip OnStack
              (frame_of 48 0x1b sample_regs)
              (running_state 0 (frame_of 48 0x1b sample_regs))
              jos_case_labels eq_refl eq_refl) as (Ht & Hr).
  split; [exact Ht|].
  destruct (Hr (-3) (running_state 0 (frame_of 48 0x1b sample_regs))
               (frame_of 48 0x1b sample_regs) eq_refl eq_refl)
    as (s2 & Ho & _ & _ & Hw & Hi).
  exists s2. split; [exact Ho|]. split; [exact Hw|].
  apply Hi. lia.
Defined.

Lemma trap_single_step_witness :
  Z.testbit
    (dr6 (running_state 0x4001 (frame_of 1 0x1b sample_regs))) 14 = true /\
  exists s2,
    trap OnStack (running_state 0x4001 (frame_of 1 0x1b sample_regs)) =
      ([incoming OnStack] ++ [Emonitor_ss (InEnv 1)], Done tt s2) /\
    Z.testbit (dr6 s2) 14 = false /\
    dr6 s2 = 1 /\
    envs s2 =
      [mkEnv zero_frame 0x1000 1;
       mkEnv (frame_of 1 0x1b sample_regs) 0x1001 1].
Proof.
  assert (He : trap_entry OnStack
                 (running_state 0x4001 (frame_of 1 0x1b sample_regs)) =
               ([incoming OnStack],
                Done (InEnv 1)
                  (with_envs
                     [mkEnv zero_frame 0x1000 1;
                      mkEnv (frame_of 1 0x1b sample_regs) 0x1001 1]
                     (running_state 0x4001 (frame_of 1 0x1b sample_regs)))))
    by (vm_compute; reflexivity).
  assert (Hd : trap_dispatch (InEnv 1)
                 (with_envs
                    [mkEnv zero_frame 0x1000 1;
                     mkEnv (frame_of 1 0x1b sample_regs) 0x1001 1]
                    (running_state 0x4001 (frame_of 1 0x1b sample_regs))) =
               ([Emonitor_ss (InEnv 1)],
                Done tt
                  (with_envs
                     [mkEnv zero_frame 0x1000 1;
                      mkEnv (frame_of 1 0x1b sample_regs) 0x1001 1]
                     (running_state 0x4001 (frame_of 1 0x1b sample_regs)))))
    by (vm_compute; reflexivity).
  destruct (trap_single_step _ _ _ _ _ _ _ He Hd) as (Hset & _).
  split; [vm_compute; reflexivity|].
  destruct Hset
    as (s2 & Ht & Hb & _ & Hv & _ & _ & _ & _ & _ & _ & _ & _ & Henvs & _);
    [vm_compute; reflexivity|].
  exists s2. split; [exact Ht|]. split; [exact Hb|].
  split; [rewrite Hv; reflexivity | rewrite Henvs; reflexivity].
Defined.

Lemma trap_entry_rebinds_witness :
  trap_entry OnStack (running_state 0 (frame_of 48 0x1b sample_regs)) =
    ([incoming OnStack],
     Done (InEnv 1)
       (with_envs
          (<[1%nat := set_env_tf (frame_of 48 0x1b sample_regs)
                        (mkEnv zero_frame 0x1001 1)]>
             (envs (running_state 0 (frame_of 48 0x1b sample_regs))))
          (running_state 0 (frame_of 48 0x1b sample_regs)))) /\
  trap_entry OnStack (running_state 0 (frame_of 48 0x08 sample_regs)) =
    ([incoming OnStack],
     Done OnStack (running_state 0 (frame_of 48 0x08 sample_regs))).
Proof.
  split.
  - destruct (trap_entry_rebinds OnStack (frame_of 48 0x1b sample_regs)
                (running_state 0 (frame_of 48 0x1b sample_regs))
                jos_case_labels eq_refl) as (Hu & _).
    destruct (Hu eq_refl 1%nat (mkEnv zero_frame 0x1001 1) eq_refl eq_refl)
      as (He & _).
    exact He.
  - destruct (trap_entry_rebinds OnStack (frame_of 48 0x08 sample_regs)
                (running_state 0 (frame_of 48 0x08 sample_regs))
                jos_case_labels eq_refl) as (_ & Hk).
    destruct Hk as (He & _); [vm_compute; discriminate|]. exact He.
Defined.

Lemma privilege_tests_disagree_witness :
  trap_entry OnStack (running_state 0 (frame_of 13 0x10 sample_regs)) =
    ([incoming OnStack],
     Done OnStack (running_state 0 (frame_of 13 0x10 sample_regs))) /\
  trap_dispatch OnStack (running_state 0 (frame_of 13 0x10 sample_regs)) =
    (frame_dump OnStack (frame_of 13 0x10 sample_regs) ++
       [Eenv_destroy (Some 1%nat)],
     Stop Away (running_state 0 (frame_of 13 0x10 sample_regs))) /\
  trap_dispatch OnStack (running_state 0 (frame_of 14 0x10 sample_regs)) =
    (user_fault_line (mkEnv zero_frame 0x1001 1)
       (running_state 0 (frame_of 14 0x10 sample_regs))
       (frame_of 14 0x10 sample_regs)
     :: frame_dump OnStack (frame_of 14 0x10 sample_regs) ++
        [Eenv_destroy (Some 1%nat)],
     Stop Away (running_state 0 (frame_of 14 0x10 sample_regs))).
Proof.
  destruct (privilege_tests_disagree OnStack (frame_of 13 0x10 sample_regs)
              (running_state 0 (frame_of 13 0x10 sample_regs)) eq_refl eq_refl)
    as (He & Hd & _ & _); [vm_compute; discriminate|].
  destruct (privilege_tests_disagree OnStack (frame_of 14 0x10 sample_regs)
              (running_state 0 (frame_of 14 0x10 sample_regs)) eq_refl eq_refl)
    as (_ & _ & Hp & _); [vm_compute; discriminate|].
  split; [exact He|]. split.
  - apply Hd; vm_compute; discriminate.
  - exact (Hp eq_refl 1%nat (mkEnv zero_frame 0x1001 1) eq_refl eq_refl).
Defined.

Lemma page_fault_prints_before_check_witness :
  page_fault_handler OnStack (running_state 0 (frame_of 14 0x08 sample_regs)) =
    (Ecprintf "[%08x] user fault va %08x ip %08x\n"
       [Aint 0x1001; Aint 0xdeadbeef; Aint 0x800020]
     :: frame_dump OnStack (frame_of 14 0x08 sample_regs) ++
        [Epanic "Page fault in kernel"],
     Stop (Panicked "Page fault in kernel")
          (running_state 0 (frame_of 14 0x08 sample_regs))) /\
  trap OnStack (boot_state (frame_of 14 0x08 sample_regs)) =
    ([Ecprintf "Incoming TRAP frame at %p\n" [Aptr OnStack]],
     Stop Fault (boot_state (frame_of 14 0x08 sample_regs))).
Proof.
  split.
  - destruct (page_fault_prints_before_check OnStack
                (frame_of 14 0x08 sample_regs)
                (running_state 0 (frame_of 14 0x08 sample_regs)) eq_refl)
      as (Hr & _).
    destruct (Hr 1%nat (mkEnv zero_frame 0x1001 1) eq_refl eq_refl) as (_ & Hk).
    exact (Hk eq_refl).
  - destruct (page_fault_prints_before_check OnStack
                (frame_of 14 0x08 sample_regs)
                (boot_state (frame_of 14 0x08 sample_regs)) eq_refl)
      as (_ & _ & Ht).
    apply Ht; [reflexivity | reflexivity | vm_compute; discriminate].
Defined.

(** C3, at a kernel page fault taken while no environment is current: the
    handler stops at the read of [curenv->env_id], before any line is
    printed and before the panic the kernel-mode branch would raise. *)
Theorem page_fault_kernel_no_curenv :
  tf_cs (frame_of 14 0x08 sample_regs) = GD_KT /\
  curenv (boot_state (frame_of 14 0x08 sample_regs)) = None /\
  page_fault_handler OnStack (boot_state (frame_of 14 0x08 sample_regs)) =
    ([], Stop Fault (boot_state (frame_of 14 0x08 sample_regs))) /\
  trap OnStack (boot_state (frame_of 14 0x08 sample_regs)) =
    ([incoming OnStack],
     Stop Fault (boot_state (frame_of 14 0x08 sample_regs))).
Proof. repeat split; reflexivity. Qed.

End Concrete.

(** ** Further properties of the functions of trap.c *)

Lemma bind_Done_inv {A B} (m : M A) (k : A -> M B) s t b s2 :
  bind m k s = (t, Done b s2) ->
  exists t1 a s1 t2,
    m s = (t1, Done a s1) /\ k a s1 = (t2, Done b s2) /\ t = t1 ++ t2.
Proof.
  unfold bind. destruct (m s) as [t1 [a s1|x s1]]; [|discriminate].
  destruct (k a s1) as [t2 o] eqn:Hk. intros [= <- ->].
  exists t1, a, s1, t2. auto.
Qed.

Lemma logs_only_bind P {A B} (m : M A) (k : A -> M B) :
  logs_only P m -> (forall a, logs_only P (k a)) -> logs_only P (bind m k).
Proof.
  intros Hm Hk s. unfold bind. specialize (Hm s).
  destruct (m s) as [t1 [a s1|x s1]]; [|exact Hm].
  specialize (Hk a s1). destruct (k a s1) as [t2 o].
  apply Forall_app. split; assumption.
Qed.

Lemma logs_only_silent P {A} (m : M A) :
  (forall s, (m s).1 = []) -> logs_only P m.
Proof. intros Hm s. rewrite Hm. constructor. Qed.

Lemma logs_only_one P {A} (m : M A) ev :
  P ev -> (forall s, (m s).1 = [ev]) -> logs_only P m.
Proof. intros Hev Hm s. rewrite Hm. repeat constructor. exact Hev. Qed.

Lemma extcall_trace {A} ev (f : State -> option (A * State)) s :
  (extcall ev f s).1 = [ev].
Proof. unfold extcall. destruct (f s) as [[a s1]|]; reflexivity. Qed.

Lemma deref_tf_trace tf s : (deref_tf tf s).1 = [].
Proof. unfold deref_tf. destruct (load_tf tf s); reflexivity. Qed.

Lemma deref_env_trace p s : (deref_env p s).1 = [].
Proof. unfold deref_env. destruct (load_env p s); reflexivity. Qed.

Lemma store_tf_trace tf f s : (store_tf tf f s).1 = [].
Proof. unfold store_tf. destruct (load_tf tf s); reflexivity. Qed.

Section Further.
Context {layout : Layout} {collab : Collaborators}.

(** *** trapname *)

Lemma excnames_length : length excnames = 20%nat.
Proof. reflexivity. Qed.

(** X1: for an [int] in 0..19 [trapname] is the entry of the table, whatever
    [T_SYSCALL] is; outside that range, negative numbers included, it is
    "System call" for [T_SYSCALL] and "(unknown trap)" for everything
    else. *)
Theorem trapname_cases (trapno : Z) :
  - 2 ^ 31 <= trapno < 2 ^ 31 ->
  (0 <= trapno < 20 ->
     excnames !! Z.to_nat trapno = Some (trapname trapno)) /\
  (trapno < 0 \/ 20 <= trapno ->
     trapname trapno =
       if trapno =? T_SYSCALL then "System call"%string
       else "(unknown trap)"%string).
Proof.
  intros Hint. unfold trapname. rewrite excnames_length. split.
  - intros Hr. unfold to_uint32. rewrite Z.mod_small by lia.
    destruct (Z.ltb_spec trapno (Z.of_nat 20)) as [_|Hge]; [|lia].
    destruct (lookup_lt_is_Some_2 excnames (Z.to_nat trapno)) as [name Hn].
    { rewrite excnames_length. lia. }
    rewrite Hn. reflexivity.
  - intros Hout.
    assert (Hbig : 20 <= to_uint32 trapno).
    { unfold to_uint32. destruct Hout as [Hneg|Hge].
      - rewrite <- (Z.mod_add trapno 1 (2 ^ 32)) by lia.
        rewrite Z.mod_small by lia. lia.
      - rewrite Z.mod_small by lia. exact Hge. }
    destruct (Z.ltb_spec (to_uint32 trapno) (Z.of_nat 20)) as [Hlt|_]; [lia|].
    reflexivity.
Qed.

(** *** print_trapframe *)

Lemma frame_dump_console tf f : Forall console (frame_dump tf f).
Proof. unfold frame_dump. repeat constructor; eexists _, _; reflexivity. Qed.

(** X2: [print_trapframe] only writes to the console and leaves the state
    as it is: on a readable frame it returns after 18 lines, on a dangling
    pointer it stops after the header line. *)
Theorem print_trapframe_console_only (tf : tfptr) (s : State) :
  Forall console (print_trapframe tf s).1 /\
  final_state (print_trapframe tf s).2 = s /\
  (forall f, load_tf tf s = Some f ->
     (print_trapframe tf s).2 = Done tt s /\
     length (print_trapframe tf s).1 = 18%nat) /\
  (load_tf tf s = None ->
     print_trapframe tf s =
       ([Ecprintf "TRAP frame at %p\n" [Aptr tf]], Stop Fault s)).
Proof.
  destruct (load_tf tf s) as [f|] eqn:Hf.
  - rewrite (print_trapframe_run tf f s Hf). cbn [fst snd final_state].
    split; [apply frame_dump_console|]. split; [reflexivity|].
    split; [|discriminate]. intros f' _. split; reflexivity.
  - assert (Hp : print_trapframe tf s =
                 ([Ecprintf "TRAP frame at %p\n" [Aptr tf]], Stop Fault s)).
    { unfold print_trapframe, bind, cprintf, emit, deref_tf.
      rewrite Hf. reflexivity. }
    rewrite Hp. cbn [fst snd final_state].
    split; [repeat constructor; eexists _, _; reflexivity|].
    split; [reflexivity|]. split; [discriminate|reflexivity].
Qed.

(** *** single_step_enabled *)

Lemma with_dr6_same s : with_dr6 (dr6 s) s = s.
Proof. destruct s; reflexivity. Qed.

Lemma single_step_enabled_run s :
  single_step_enabled s =
  if Z.testbit (dr6 s) 14
  then ([], Done 1 (with_dr6 (Z.land (dr6 s) (to_uint32 (Z.lnot sstep))) s))
  else ([], Done 0 s).
Proof.
  unfold single_step_enabled, bind, get, modify, ret.
  rewrite sstep_bit. destruct (Z.testbit (dr6 s) 14); reflexivity.
Qed.

(** X3: [single_step_enabled] answers 1 exactly when bit 14 of DR6 is set;
    afterwards that bit is clear, the other 31 bits and the rest of the
    state are as before, and a second call answers 0 and changes nothing. *)
Theorem single_step_enabled_once (s : State) :
  exists r s1,
    single_step_enabled s = ([], Done r s1) /\
    r = (if Z.testbit (dr6 s) 14 then 1 else 0) /\
    Z.testbit (dr6 s1) 14 = false /\
    (forall n, 0 <= n < 32 -> n <> 14 ->
       Z.testbit (dr6 s1) n = Z.testbit (dr6 s) n) /\
    s1 = with_dr6 (dr6 s1) s /\
    single_step_enabled s1 = ([], Done 0 s1).
Proof.
  rewrite single_step_enabled_run.
  destruct (Z.testbit (dr6 s) 14) eqn:Hb.
  - assert (Hc : Z.testbit (Z.land (dr6 s) (to_uint32 (Z.lnot sstep))) 14
                 = false)
      by (rewrite sstep_cleared by lia; reflexivity).
    eexists _, _. split; [reflexivity|]. split; [reflexivity|].
    cbn [dr6 with_dr6]. split; [exact Hc|]. split.
    + intros n Hn Hne. rewrite sstep_cleared by lia.
      apply Z.eqb_neq in Hne. rewrite Hne. reflexivity.
    + split; [reflexivity|].
      rewrite single_step_enabled_run. cbn [dr6 with_dr6].
      rewrite Hc. reflexivity.
  - eexists _, _. split; [reflexivity|]. split; [reflexivity|].
    split; [exact Hb|]. split; [reflexivity|].
    split; [symmetry; apply with_dr6_same|].
    rewrite single_step_enabled_run, Hb. reflexivity.
Qed.

(** *** What is logged, and when [trap] resumes or returns *)

Lemma console_not_env_run ev : console ev -> not_env_run ev.
Proof. intros (fmt & args & ->) e. discriminate. Qed.

Lemma print_trapframe_trace_console tf s :
  Forall console (print_trapframe tf s).1.
Proof.
  destruct (load_tf tf s) as [f|] eqn:Hf.
  - rewrite (print_trapframe_run tf f s Hf). apply frame_dump_console.
  - unfold print_trapframe, bind, cprintf, emit, deref_tf. rewrite Hf.
    repeat constructor. eexists _, _. reflexivity.
Qed.

Lemma quiet_print_trapframe tf : logs_only not_env_run (print_trapframe tf).
Proof.
  intros s. eapply Forall_impl; [apply print_trapframe_trace_console|].
  apply console_not_env_run.
Qed.

Lemma quiet_get : logs_only not_env_run get.
Proof. apply logs_only_silent. reflexivity. Qed.

Lemma quiet_ret {A} (a : A) : logs_only not_env_run (ret a).
Proof. apply logs_only_silent. reflexivity. Qed.

Lemma quiet_deref_tf tf : logs_only not_env_run (deref_tf tf).
Proof. apply logs_only_silent. apply deref_tf_trace. Qed.

Lemma quiet_deref_env p : logs_only not_env_run (deref_env p).
Proof. apply logs_only_silent. apply deref_env_trace. Qed.

Lemma quiet_store_tf tf f : logs_only not_env_run (store_tf tf f).
Proof. apply logs_only_silent. apply store_tf_trace. Qed.

Lemma quiet_cprintf fmt args : logs_only not_env_run (cprintf fmt args).
Proof.
  apply (logs_only_one _ _ (Ecprintf fmt args)); [|reflexivity].
  intros e. discriminate.
Qed.

Lemma quiet_panic {A} msg : logs_only not_env_run (@panic A msg).
Proof.
  apply (logs_only_one _ _ (Epanic msg)); [|reflexivity].
  intros e. discriminate.
Qed.

Lemma quiet_extcall {A} ev (f : State -> option (A * State)) :
  not_env_run ev -> logs_only not_env_run (extcall ev f).
Proof. intros Hev. apply (logs_only_one _ _ ev Hev). apply extcall_trace. Qed.

Lemma quiet_destroy :
  logs_only not_env_run
    (do s <- get; extcall (Eenv_destroy (curenv s)) (env_destroy (curenv s))).
Proof.
  apply logs_only_bind; [apply quiet_get|]. intros s.
  apply quiet_extcall. intros e. discriminate.
Qed.

Lemma quiet_page_fault_handler tf :
  logs_only not_env_run (page_fault_handler tf).
Proof.
  unfold page_fault_handler.
  apply logs_only_bind; [apply quiet_get|]. intros s.
  apply logs_only_bind; [apply quiet_deref_env|]. intros e.
  apply logs_only_bind; [apply quiet_deref_tf|]. intros f.
  apply logs_only_bind; [apply quiet_cprintf|]. intros _.
  apply logs_only_bind; [apply quiet_print_trapframe|]. intros _.
  destruct (tf_cs f =? GD_KT); [apply quiet_panic|apply quiet_destroy].
Qed.

Lemma quiet_trap_dispatch tf : logs_only not_env_run (trap_dispatch tf).
Proof.
  unfold trap_dispatch.
  apply logs_only_bind; [apply quiet_deref_tf|]. intros f.
  destruct (tf_trapno f =? T_PGFLT); [apply quiet_page_fault_handler|].
  destruct (tf_trapno f =? T_BRKPT);
    [apply quiet_extcall; intros e; discriminate|].
  destruct (tf_trapno f =? T_DEBUG);
    [apply quiet_extcall; intros e; discriminate|].
  destruct (tf_trapno f =? T_SYSCALL).
  - apply logs_only_bind; [apply quiet_extcall; intros e; discriminate|].
    intros r.
    apply logs_only_bind; [apply quiet_deref_tf|]. intros f1.
    apply quiet_store_tf.
  - apply logs_only_bind; [apply quiet_print_trapframe|]. intros _.
    destruct (tf_cs f =? GD_KT); [apply quiet_panic|apply quiet_destroy].
Qed.

Lemma quiet_trap_entry tf : logs_only not_env_run (trap_entry tf).
Proof.
  unfold trap_entry.
  apply logs_only_bind; [apply quiet_cprintf|]. intros _.
  apply logs_only_bind; [apply quiet_deref_tf|]. intros f.
  destruct (Z.land (tf_cs f) 3 =? 3); [|apply quiet_ret].
  apply logs_only_bind; [apply quiet_get|]. intros s.
  destruct (curenv s) as [i|]; [|apply quiet_panic].
  apply logs_only_bind; [apply quiet_store_tf|]. intros _. apply quiet_ret.
Qed.

Lemma quiet_no_env_run (t : list Event) e :
  Forall not_env_run t -> Eenv_run e ∉ t.
Proof.
  intros Hq Hin. rewrite Forall_forall in Hq. exact (Hq _ Hin e eq_refl).
Qed.

(** X4: [trap_dispatch] never calls [env_run], whatever the frame, the state
    and the collaborators: resuming is left to [trap]. *)
Theorem trap_dispatch_never_resumes (tf : tfptr) (s : State) (e : envptr) :
  Eenv_run e ∉ (trap_dispatch tf s).1.
Proof. apply quiet_no_env_run. apply quiet_trap_dispatch. Qed.

(** How [trap] ends, by the part that ends it. *)
Lemma trap_cases tf s :
  (exists t0 x s0,
     trap_entry tf s = (t0, Stop x s0) /\ trap tf s = (t0, Stop x s0)) \/
  (exists t0 tf' s0 t1 x s1,
     trap_entry tf s = (t0, Done tf' s0) /\
     trap_dispatch tf' s0 = (t1, Stop x s1) /\
     trap tf s = (t0 ++ t1, Stop x s1)) \/
  (exists t0 tf' s0 t1 s1,
     trap_entry tf s = (t0, Done tf' s0) /\
     trap_dispatch tf' s0 = (t1, Done tt s1) /\
     trap tf s = (t0 ++ t1 ++ (trap_exit s1).1, (trap_exit s1).2)).
Proof.
  destruct (trap_entry tf s) as [t0 [tf' s0|x s0]] eqn:He.
  - right. destruct (trap_dispatch tf' s0) as [t1 [[] s1|x s1]] eqn:Hd.
    + right. exists t0, tf', s0, t1, s1.
      split; [reflexivity|]. split; [exact Hd|].
      exact (trap_after_dispatch _ _ _ _ _ _ _ He Hd).
    + left. exists t0, tf', s0, t1, x, s1.
      split; [reflexivity|]. split; [exact Hd|].
      rewrite (trap_after_entry _ _ _ _ _ He).
      rewrite (bind_Stop _ _ _ _ _ _ Hd). reflexivity.
  - left. exists t0, x, s0. split; [reflexivity|].
    unfold trap. exact (bind_Stop _ _ _ _ _ _ He).
Qed.

(** How the exit part of [trap] ends. *)
Lemma trap_exit_cases s :
  (Z.testbit (dr6 s) 14 = true /\
   trap_exit s =
     ([], Done tt (with_dr6 (Z.land (dr6 s) (to_uint32 (Z.lnot sstep))) s))) \/
  (Z.testbit (dr6 s) 14 = false /\
   exists i env,
     curenv s = Some i /\ envs s !! i = Some env /\
     env_status env = ENV_RUNNABLE /\
     trap_exit s = ([Eenv_run (Some i)], Stop (Resumed (Some i)) s)) \/
  (Z.testbit (dr6 s) 14 = false /\
   trap_exit s = ([Epanic assert_runnable], Stop (Panicked assert_runnable) s)) \/
  (Z.testbit (dr6 s) 14 = false /\ trap_exit s = ([], Stop Fault s)).
Proof.
  destruct (Z.testbit (dr6 s) 14) eqn:Hb.
  - left. split; [reflexivity|]. apply trap_exit_single_step. exact Hb.
  - right. destruct (curenv s) as [i|] eqn:Hc.
    + destruct (envs s !! i) as [env|] eqn:He.
      * destruct (Z.eq_dec (env_status env) ENV_RUNNABLE) as [Hst|Hst].
        -- left. split; [reflexivity|]. exists i, env.
           repeat split; try assumption.
           apply (trap_exit_resume s i env Hb Hc He Hst).
        -- right. left. split; [reflexivity|].
           apply trap_exit_not_runnable; [exact Hb|].
           right. exists i, env. auto.
      * right. right. split; [reflexivity|].
        unfold trap_exit, bind. rewrite single_step_enabled_run, Hb.
        cbn. rewrite Hc. unfold deref_env. cbn. rewrite He. reflexivity.
    + right. left. split; [reflexivity|].
      apply trap_exit_not_runnable; [exact Hb|]. left. exact Hc.
Qed.

(** X5: [trap] calls [env_run] at most once, as its last act, and only on
    the current environment, when that environment is [ENV_RUNNABLE] and the
    single-step bit of DR6 is clear. *)
Theorem trap_resumes_runnable (tf : tfptr) (s : State) (e : envptr) :
  Eenv_run e ∈ (trap tf s).1 ->
  exists t0 i env s1,
    trap tf s = (t0 ++ [Eenv_run (Some i)], Stop (Resumed (Some i)) s1) /\
    e = Some i /\
    (forall e', Eenv_run e' ∉ t0) /\
    curenv s1 = Some i /\ envs s1 !! i = Some env /\
    env_status env = ENV_RUNNABLE /\
    Z.testbit (dr6 s1) 14 = false.
Proof.
  intros Hin.
  destruct (trap_cases tf s)
    as [(t0 & x & s0 & He & Ht)
       |[(t0 & tf' & s0 & t1 & x & s1 & He & Hd & Ht)
        |(t0 & tf' & s0 & t1 & s1 & He & Hd & Ht)]].
  - exfalso. rewrite Ht in Hin. cbn [fst] in Hin.
    pose proof (quiet_trap_entry tf s) as Hq. rewrite He in Hq.
    exact (quiet_no_env_run _ _ Hq Hin).
  - exfalso. rewrite Ht in Hin. cbn [fst] in Hin.
    pose proof (quiet_trap_entry tf s) as Hq. rewrite He in Hq.
    pose proof (quiet_trap_dispatch tf' s0) as Hq'. rewrite Hd in Hq'.
    apply elem_of_app in Hin as [Hin|Hin];
      [exact (quiet_no_env_run _ _ Hq Hin)|exact (quiet_no_env_run _ _ Hq' Hin)].
  - pose proof (quiet_trap_entry tf s) as Hq. rewrite He in Hq.
    pose proof (quiet_trap_dispatch tf' s0) as Hq'. rewrite Hd in Hq'.
    cbn [fst] in Hq, Hq'.
    assert (Hq01 : Forall not_env_run (t0 ++ t1))
      by (apply Forall_app; split; assumption).
    rewrite Ht in Hin. cbn [fst] in Hin. rewrite app_assoc in Hin, Ht.
    destruct (trap_exit_cases s1)
      as [(Hb & Hx)|[(Hb & i & env & Hc & Hl & Hst & Hx)
                    |[(Hb & Hx)|(Hb & Hx)]]];
      rewrite Hx in Hin, Ht; cbn [fst snd] in Hin, Ht.
    + exfalso. rewrite app_nil_r in Hin.
      exact (quiet_no_env_run _ _ Hq01 Hin).
    + exists (t0 ++ t1), i, env, s1. split; [exact Ht|].
      apply elem_of_app in Hin as [Hin|Hin];
        [exfalso; exact (quiet_no_env_run _ _ Hq01 Hin)|].
      apply list_elem_of_singleton in Hin. injection Hin as ->.
      split; [reflexivity|].
      split; [intros e'; apply quiet_no_env_run; exact Hq01|].
      auto.
    + exfalso. apply elem_of_app in Hin as [Hin|Hin];
        [exact (quiet_no_env_run _ _ Hq01 Hin)|].
      apply list_elem_of_singleton in Hin. discriminate.
    + exfalso. rewrite app_nil_r in Hin.
      exact (quiet_no_env_run _ _ Hq01 Hin).
Qed.

(** X6: [trap] returns to its caller only on the single-step path: when it
    returns, the single-step bit was set after dispatch and is clear in the
    state it returns, only DR6 differs from the state dispatch left, and
    [env_run] was not called. *)
Theorem trap_returns_only_single_step (tf : tfptr) (s s2 : State)
        (t : list Event) (u : unit) :
  trap tf s = (t, Done u s2) ->
  Z.testbit (dr6 s2) 14 = false /\
  (forall e, Eenv_run e ∉ t) /\
  exists t0 tf' s0 t1 s1,
    trap_entry tf s = (t0, Done tf' s0) /\
    trap_dispatch tf' s0 = (t1, Done tt s1) /\
    t = t0 ++ t1 /\
    Z.testbit (dr6 s1) 14 = true /\
    s2 = with_dr6 (dr6 s2) s1.
Proof.
  intros Hret.
  destruct (trap_cases tf s)
    as [(t0 & x & s0 & He & Ht)
       |[(t0 & tf' & s0 & t1 & x & s1 & He & Hd & Ht)
        |(t0 & tf' & s0 & t1 & s1 & He & Hd & Ht)]];
    rewrite Ht in Hret; try discriminate.
  destruct (trap_exit_cases s1)
    as [(Hb & Hx)|[(Hb & i & env & Hc & Hl & Hst & Hx)
                  |[(Hb & Hx)|(Hb & Hx)]]];
    rewrite Hx in Hret; cbn [fst snd] in Hret; try discriminate.
  injection Hret as Ht' Hu Hs. subst t u s2. rewrite app_nil_r.
  pose proof (quiet_trap_entry tf s) as Hq. rewrite He in Hq.
  pose proof (quiet_trap_dispatch tf' s0) as Hq'. rewrite Hd in Hq'.
  cbn [dr6 with_dr6]. split; [rewrite sstep_cleared by lia; reflexivity|].
  split.
  - intros e. apply quiet_no_env_run. apply Forall_app. split; assumption.
  - exists t0, tf', s0, t1, s1. repeat split; assumption || reflexivity.
Qed.

(** *** Paths through [trap] *)

Lemma bind_trace_prefix {A B} (m : M A) (k : A -> M B) s :
  exists rest, (bind m k s).1 = (m s).1 ++ rest.
Proof.
  unfold bind. destruct (m s) as [t [a s1|x s1]].
  - destruct (k a s1) as [t' o]. exists t'. reflexivity.
  - exists []. cbn. rewrite app_nil_r. reflexivity.
Qed.

Lemma case_labels_distinct :
  NoDup case_labels ->
  T_PGFLT <> T_BRKPT /\ T_PGFLT <> T_DEBUG /\ T_BRKPT <> T_DEBUG.
Proof.
  unfold case_labels. intros Hnd.
  apply NoDup_cons in Hnd as [N1 Hnd]. apply NoDup_cons in Hnd as [N2 _].
  repeat split; intros E; [apply N1|apply N1|apply N2]; rewrite E;
    repeat first [apply list_elem_of_here | apply list_elem_of_further].
Qed.

Lemma trap_dispatch_monitor tf f s :
  NoDup case_labels -> load_tf tf s = Some f ->
  (tf_trapno f = T_BRKPT ->
     trap_dispatch tf s = extcall (Emonitor tf) (monitor tf) s) /\
  (tf_trapno f = T_DEBUG ->
     trap_dispatch tf s = extcall (Emonitor_ss tf) (monitor_ss tf) s).
Proof.
  intros Hnd Hf. destruct (case_labels_distinct Hnd) as (H1 & H2 & H3).
  split; intros Hno; unfold trap_dispatch;
    rewrite (bind_Done _ _ _ _ _ _ (deref_tf_Some _ _ _ Hf)), Hno.
  - apply not_eq_sym, Z.eqb_neq in H1. rewrite H1, Z.eqb_refl.
    destruct (extcall (Emonitor tf) (monitor tf) s); reflexivity.
  - apply not_eq_sym, Z.eqb_neq in H2. apply not_eq_sym, Z.eqb_neq in H3.
    rewrite H2, H3, Z.eqb_refl.
    destruct (extcall (Emonitor_ss tf) (monitor_ss tf) s); reflexivity.
Qed.

Lemma load_tf_saved f i e s :
  envs s !! i = Some e ->
  load_tf (InEnv i) (with_envs (alter (set_env_tf f) i (envs s)) s) = Some f.
Proof. intros He. cbn. rewrite list_lookup_alter_eq, He. reflexivity. Qed.

(** X7: a frame from user mode taken while no environment is current makes
    [trap] panic on [assert(curenv)]: nothing is dispatched and the state is
    left as it was. *)
Theorem trap_user_requires_curenv (tf : tfptr) (f : Trapframe) (s : State) :
  load_tf tf s = Some f -> Z.land (tf_cs f) 3 = 3 -> curenv s = None ->
  trap tf s =
    ([Ecprintf "Incoming TRAP frame at %p\n" [Aptr tf];
      Epanic "assertion failed: curenv"],
     Stop (Panicked "assertion failed: curenv") s).
Proof.
  intros Hf Hcs Hc. unfold trap.
  exact (bind_Stop _ _ _ _ _ _ (trap_entry_no_curenv tf f s Hf Hcs Hc)).
Qed.

(** X8: a breakpoint goes to [monitor] and a debug trap to [monitor_ss], as
    the first call after the entry line; for a frame from user mode the
    monitor is handed the pointer to the copy in [curenv->env_tf], for any
    other frame the pointer [trap] received. *)
Theorem trap_monitor_pointer (tf : tfptr) (f : Trapframe) (s : State) :
  NoDup case_labels -> load_tf tf s = Some f ->
  (tf_trapno f = T_BRKPT ->
     (Z.land (tf_cs f) 3 = 3 ->
      forall i e, curenv s = Some i -> envs s !! i = Some e ->
        exists rest,
          (trap tf s).1 = incoming tf :: Emonitor (InEnv i) :: rest) /\
     (Z.land (tf_cs f) 3 <> 3 ->
        exists rest, (trap tf s).1 = incoming tf :: Emonitor tf :: rest)) /\
  (tf_trapno f = T_DEBUG ->
     (Z.land (tf_cs f) 3 = 3 ->
      forall i e, curenv s = Some i -> envs s !! i = Some e ->
        exists rest,
          (trap tf s).1 = incoming tf :: Emonitor_ss (InEnv i) :: rest) /\
     (Z.land (tf_cs f) 3 <> 3 ->
        exists rest, (trap tf s).1 = incoming tf :: Emonitor_ss tf :: rest)).
Proof.
  intros Hnd Hf.
  split; intros Hno; split.
  - intros Hcs i e Hc He.
    rewrite (trap_after_entry _ _ _ _ _ (trap_entry_user tf f i e s Hf Hcs Hc He)).
    destruct (trap_dispatch_monitor (InEnv i) f _ Hnd (load_tf_saved f i e s He))
      as (Hm & _).
    destruct (bind_trace_prefix (trap_dispatch (InEnv i)) (fun _ => trap_exit)
                (with_envs (alter (set_env_tf f) i (envs s)) s)) as (rest & Hr).
    cbn [fst]. rewrite Hr, (Hm Hno), extcall_trace. exists rest. reflexivity.
  - intros Hcs.
    rewrite (trap_after_entry _ _ _ _ _ (trap_entry_kernel tf f s Hf Hcs)).
    destruct (trap_dispatch_monitor tf f s Hnd Hf) as (Hm & _).
    destruct (bind_trace_prefix (trap_dispatch tf) (fun _ => trap_exit) s)
      as (rest & Hr).
    cbn [fst]. rewrite Hr, (Hm Hno), extcall_trace. exists rest. reflexivity.
  - intros Hcs i e Hc He.
    rewrite (trap_after_entry _ _ _ _ _ (trap_entry_user tf f i e s Hf Hcs Hc He)).
    destruct (trap_dispatch_monitor (InEnv i) f _ Hnd (load_tf_saved f i e s He))
      as (_ & Hm).
    destruct (bind_trace_prefix (trap_dispatch (InEnv i)) (fun _ => trap_exit)
                (with_envs (alter (set_env_tf f) i (envs s)) s)) as (rest & Hr).
    cbn [fst]. rewrite Hr, (Hm Hno), extcall_trace. exists rest. reflexivity.
  - intros Hcs.
    rewrite (trap_after_entry _ _ _ _ _ (trap_entry_kernel tf f s Hf Hcs)).
    destruct (trap_dispatch_monitor tf f s Hnd Hf) as (_ & Hm).
    destruct (bind_trace_prefix (trap_dispatch tf) (fun _ => trap_exit) s)
      as (rest & Hr).
    cbn [fst]. rewrite Hr, (Hm Hno), extcall_trace. exists rest. reflexivity.
Qed.

(** X9: when [curenv] points to an environment, [page_fault_handler] prints
    the fault line with that environment's id, CR2 and the saved [eip], then
    the frame, and then panics if the saved code segment is [GD_KT] and
    otherwise calls [env_destroy(curenv)] on the unchanged state; it never
    calls [env_run]. *)
Theorem page_fault_handler_with_curenv (tf : tfptr) (f : Trapframe)
        (i : nat) (e : Env) (s : State) :
  curenv s = Some i -> envs s !! i = Some e -> load_tf tf s = Some f ->
  (tf_cs f = GD_KT ->
     page_fault_handler tf s =
       (Ecprintf "[%08x] user fault va %08x ip %08x\n"
          [Aint (env_id e); Aint (cr2 s); Aint (tf_eip f)]
        :: frame_dump tf f ++ [Epanic "Page fault in kernel"],
        Stop (Panicked "Page fault in kernel") s)) /\
  (tf_cs f <> GD_KT ->
     page_fault_handler tf s =
       (Ecprintf "[%08x] user fault va %08x ip %08x\n"
          [Aint (env_id e); Aint (cr2 s); Aint (tf_eip f)]
        :: frame_dump tf f ++ [Eenv_destroy (Some i)],
        match env_destroy (Some i) s with
        | Some (_, s1) => Done tt s1
        | None => Stop Away s
        end)) /\
  (forall e', Eenv_run e' ∉ (page_fault_handler tf s).1).
Proof.
  intros Hc He Hf.
  pose proof (page_fault_handler_run tf f i e s Hc He Hf) as Hr.
  unfold user_fault_line in Hr. split; [|split].
  - intros Hk. apply Z.eqb_eq in Hk. rewrite Hk in Hr. exact Hr.
  - intros Hu. apply Z.eqb_neq in Hu. rewrite Hu in Hr.
    rewrite destroy_curenv_trace, destroy_curenv_outcome, Hc in Hr. exact Hr.
  - intros e'. apply quiet_no_env_run. apply quiet_page_fault_handler.
Qed.

(** X10: [trap] does not stop by itself after [env_destroy(curenv)]: if the
    call returns, an unhandled trap from user mode goes on to the
    single-step test and, with the bit clear, resumes whichever environment
    is then current and runnable. *)
Theorem trap_continues_after_destroy (tf : tfptr) (f : Trapframe) (s s1 : State)
        (i : nat) (e : Env) :
  load_tf tf s = Some f ->
  Z.land (tf_cs f) 3 = 3 -> tf_cs f <> GD_KT ->
  tf_trapno f <> T_PGFLT -> tf_trapno f <> T_BRKPT ->
  tf_trapno f <> T_DEBUG -> tf_trapno f <> T_SYSCALL ->
  curenv s = Some i -> envs s !! i = Some e ->
  env_destroy (Some i) (with_envs (alter (set_env_tf f) i (envs s)) s)
    = Some (tt, s1) ->
  trap tf s =
    (incoming tf :: frame_dump (InEnv i) f ++
       Eenv_destroy (Some i) :: (trap_exit s1).1,
     (trap_exit s1).2) /\
  (forall i1 e1,
     Z.testbit (dr6 s1) 14 = false ->
     curenv s1 = Some i1 -> envs s1 !! i1 = Some e1 ->
     env_status e1 = ENV_RUNNABLE ->
     trap tf s =
       (incoming tf :: frame_dump (InEnv i) f ++
          [Eenv_destroy (Some i); Eenv_run (Some i1)],
        Stop (Resumed (Some i1)) s1)).
Proof.
  intros Hf Hcs Hk H1 H2 H3 H4 Hc He Hdes.
  pose proof (trap_entry_user tf f i e s Hf Hcs Hc He) as Hen.
  pose proof (trap_dispatch_default (InEnv i) f _ (load_tf_saved f i e s He)
                H1 H2 H3 H4) as Hd.
  apply Z.eqb_neq in Hk. rewrite Hk in Hd.
  rewrite destroy_curenv_trace, destroy_curenv_outcome in Hd.
  cbn [curenv with_envs] in Hd. rewrite Hc, Hdes in Hd.
  pose proof (trap_after_dispatch _ _ _ _ _ _ _ Hen Hd) as Ht.
  assert (Ht' : trap tf s =
                (incoming tf :: frame_dump (InEnv i) f ++
                   Eenv_destroy (Some i) :: (trap_exit s1).1,
                 (trap_exit s1).2)).
  { rewrite Ht. cbn [app]. rewrite <- app_assoc. reflexivity. }
  split; [exact Ht'|].
  intros i1 e1 Hb Hc1 He1 Hst.
  rewrite Ht', (trap_exit_resume s1 i1 e1 Hb Hc1 He1 Hst). reflexivity.
Qed.

(** X11: a system call from user mode, start to end: when [syscall] returns
    [r] and leaves the calling environment current and runnable with the
    single-step bit clear, [trap] makes exactly the calls [syscall] and
    [env_run(curenv)], and the environment is resumed with [r] in the
    [reg_eax] of its saved frame; the other environments and the frame on
    the stack are as [syscall] left them. *)
Theorem trap_user_syscall_resumes (tf : tfptr) (f : Trapframe) (s s1 : State)
        (i : nat) (e e1 : Env) (r : Z) :
  NoDup case_labels ->
  load_tf tf s = Some f -> tf_trapno f = T_SYSCALL ->
  Z.land (tf_cs f) 3 = 3 ->
  curenv s = Some i -> envs s !! i = Some e ->
  syscall (reg_eax (tf_regs f)) (reg_edx (tf_regs f)) (reg_ecx (tf_regs f))
          (reg_ebx (tf_regs f)) (reg_edi (tf_regs f)) (reg_esi (tf_regs f))
          (with_envs (alter (set_env_tf f) i (envs s)) s) = Some (r, s1) ->
  curenv s1 = Some i -> envs s1 !! i = Some e1 ->
  env_status e1 = ENV_RUNNABLE -> Z.testbit (dr6 s1) 14 = false ->
  exists s2,
    trap tf s =
      ([incoming tf; syscall_event f; Eenv_run (Some i)],
       Stop (Resumed (Some i)) s2) /\
    envs s2 !! i =
      Some (set_env_tf (with_eax (to_uint32 r) (env_tf e1)) e1) /\
    (forall j, j <> i -> envs s2 !! j = envs s1 !! j) /\
    kstack_tf s2 = kstack_tf s1.
Proof.
  intros Hnd Hf Hno Hcs Hc He Hsys Hc1 He1 Hst Hb.
  pose proof (trap_entry_user tf f i e s Hf Hcs Hc He) as Hen.
  pose proof (trap_dispatch_syscall (InEnv i) f _ Hnd
                (load_tf_saved f i e s He) Hno) as Hd.
  rewrite Hsys in Hd. cbn [load_tf] in Hd. rewrite He1 in Hd.
  cbn [fmap option_fmap option_map] in Hd.
  set (s2 := write_tf (InEnv i) (with_eax (to_uint32 r) (env_tf e1)) s1) in Hd.
  assert (He2 : envs s2 !! i =
                Some (set_env_tf (with_eax (to_uint32 r) (env_tf e1)) e1)).
  { unfold s2. cbn. rewrite list_lookup_alter_eq, He1. reflexivity. }
  exists s2. split; [|split; [exact He2|split]].
  - rewrite (trap_after_dispatch _ _ _ _ _ _ _ Hen Hd).
    rewrite (trap_exit_resume s2 i _ Hb Hc1 He2 Hst). reflexivity.
  - intros j Hj. unfold s2. cbn. apply list_lookup_alter_ne. congruence.
  - reflexivity.
Qed.

(** X12: an unhandled trap taken in the kernel ([tf_cs] is [GD_KT], whose
    privilege bits are not 3) makes [trap] print the entry line and the
    frame and panic; no collaborator is called and the state is left as it
    was. *)
Theorem trap_kernel_unhandled_panics (tf : tfptr) (f : Trapframe) (s : State) :
  load_tf tf s = Some f ->
  tf_cs f = GD_KT -> Z.land GD_KT 3 <> 3 ->
  tf_trapno f <> T_PGFLT -> tf_trapno f <> T_BRKPT ->
  tf_trapno f <> T_DEBUG -> tf_trapno f <> T_SYSCALL ->
  trap tf s =
    (incoming tf :: frame_dump tf f ++ [Epanic "unhandled trap in kernel"],
     Stop (Panicked "unhandled trap in kernel") s) /\
  Forall (fun ev => console ev \/ exists msg, ev = Epanic msg) (trap tf s).1.
Proof.
  intros Hf Hk Hlow H1 H2 H3 H4.
  assert (Hcs : Z.land (tf_cs f) 3 <> 3) by (rewrite Hk; exact Hlow).
  pose proof (trap_entry_kernel tf f s Hf Hcs) as Hen.
  pose proof (trap_dispatch_default tf f s Hf H1 H2 H3 H4) as Hd.
  apply Z.eqb_eq in Hk. rewrite Hk in Hd.
  assert (Ht : trap tf s =
               (incoming tf :: frame_dump tf f ++
                  [Epanic "unhandled trap in kernel"],
                Stop (Panicked "unhandled trap in kernel") s)).
  { rewrite (trap_after_entry _ _ _ _ _ Hen).
    rewrite (bind_Stop _ _ _ _ _ _ Hd). reflexivity. }
  split; [exact Ht|]. rewrite Ht. cbn [fst].
  apply Forall_cons_2; [cbn beta; left; eexists _, _; reflexivity|].
  apply Forall_app. split.
  - eapply Forall_impl; [apply frame_dump_console|].
    intros ev Hev. left. exact Hev.
  - apply Forall_cons_2; [|apply Forall_nil_2].
    cbn beta. right. eexists. reflexivity.
Qed.

(** X17: when [syscall] does not come back (the caller was destroyed or
    gave up the processor), a system call from user mode ends there:
    nothing is written to the saved frame, which still holds the registers
    of the call, and [env_run] is not called. *)
Theorem trap_syscall_not_returning (tf : tfptr) (f : Trapframe) (s : State)
        (i : nat) (e : Env) :
  NoDup case_labels ->
  load_tf tf s = Some f -> tf_trapno f = T_SYSCALL ->
  Z.land (tf_cs f) 3 = 3 ->
  curenv s = Some i -> envs s !! i = Some e ->
  syscall (reg_eax (tf_regs f)) (reg_edx (tf_regs f)) (reg_ecx (tf_regs f))
          (reg_ebx (tf_regs f)) (reg_edi (tf_regs f)) (reg_esi (tf_regs f))
          (with_envs (alter (set_env_tf f) i (envs s)) s) = None ->
  trap tf s =
    ([incoming tf; syscall_event f],
     Stop Away (with_envs (alter (set_env_tf f) i (envs s)) s)) /\
  load_tf (InEnv i) (with_envs (alter (set_env_tf f) i (envs s)) s) = Some f.
Proof.
  intros Hnd Hf Hno Hcs Hc He Hsys.
  pose proof (trap_entry_user tf f i e s Hf Hcs Hc He) as Hen.
  pose proof (trap_dispatch_syscall (InEnv i) f _ Hnd
                (load_tf_saved f i e s He) Hno) as Hd.
  rewrite Hsys in Hd.
  split; [|exact (load_tf_saved f i e s He)].
  rewrite (trap_after_entry _ _ _ _ _ Hen).
  rewrite (bind_Stop _ _ _ _ _ _ Hd). reflexivity.
Qed.

End Further.

(** ** Further properties of start-up *)

Section Startup.
Context {layout : Layout}.

(** X13: if [gdt] has a slot [GD_TSS >> 3], [idt_init] fills it with the
    descriptor of [ts] (type [STS_T32A], base [&ts], limit
    [sizeof(struct Taskstate)], privilege 0) with the [sd_s] bit cleared,
    leaves the other slots and the length of [gdt] alone, and loads the task
    register with [GD_TSS] and the IDT register with [idt_pd]. *)
Theorem idt_init_tss (s : State) :
  (Z.to_nat (Z.shiftr GD_TSS 3) < length (gdt s))%nat ->
  gdt (idt_init s) !! Z.to_nat (Z.shiftr GD_TSS 3) =
    Some {| sd_type := STS_T32A; sd_base := ts_addr;
            sd_lim := sizeof_Taskstate; sd_dpl := 0; sd_s := 0 |} /\
  (forall j : nat, j <> Z.to_nat (Z.shiftr GD_TSS 3) ->
     gdt (idt_init s) !! j = gdt s !! j) /\
  length (gdt (idt_init s)) = length (gdt s) /\
  tr (idt_init s) = GD_TSS /\
  idtr (idt_init s) =
    {| pd_lim := 256 * sizeof_Gatedesc - 1; pd_base := idt_addr |}.
Proof.
  intros Hin. rewrite idt_init_gdt.
  destruct (idt_init_regs s) as (Htr & Hidtr).
  split; [|split; [|split; [|split]]].
  - rewrite list_lookup_alter_eq, list_lookup_insert_eq by exact Hin.
    reflexivity.
  - intros j Hj.
    rewrite list_lookup_alter_ne, list_lookup_insert_ne by congruence.
    reflexivity.
  - rewrite length_alter, length_insert. reflexivity.
  - exact Htr.
  - exact Hidtr.
Qed.

(** X14: the table [idt_init] builds does not depend on what the table held
    before: two 256-entry tables, whatever their content, end up equal. *)
Theorem idt_init_overwrites (s1 s2 : State) :
  length (idt s1) = 256%nat -> length (idt s2) = 256%nat ->
  idt (idt_init s1) = idt (idt_init s2).
Proof.
  intros H1 H2. rewrite !idt_init_idt.
  apply list_eq. intros j. rewrite !idt_init_loop_lookup.
  destruct (decide (j < 256)%nat) as [Hlt|Hge].
  - rewrite bool_decide_eq_true_2 by lia.
    destruct (lookup_lt_is_Some_2 (idt s1) j) as [g1 Hg1]; [lia|].
    destruct (lookup_lt_is_Some_2 (idt s2) j) as [g2 Hg2]; [lia|].
    rewrite Hg1, Hg2. reflexivity.
  - rewrite bool_decide_eq_false_2 by lia.
    rewrite !lookup_ge_None_2 by lia. reflexivity.
Qed.

(** X15: after [idt_init] a slot of the table exists only for the trap
    numbers 0..255; every gate is an interrupt gate on [GD_KT]; and, when
    [DPL_USER] is not 0, a gate has privilege level [DPL_USER] if and only
    if its trap number is [T_BRKPT] or [T_SYSCALL]. *)
Theorem idt_init_user_gates (s : State) (i : nat) (g : Gatedesc) :
  length (idt s) = 256%nat -> DPL_USER <> 0 ->
  idt (idt_init s) !! i = Some g ->
  (i < 256)%nat /\ gd_type g = STS_IG32 /\ gd_sel g = GD_KT /\
  gd_off g = vectors i /\
  (gd_dpl g = DPL_USER <-> Z.of_nat i = T_BRKPT \/ Z.of_nat i = T_SYSCALL).
Proof.
  intros Hlen Hdpl Hg. rewrite idt_init_idt in Hg.
  assert (Hi : (i < 256)%nat).
  { apply lookup_lt_Some in Hg. rewrite idt_init_loop_length in Hg. lia. }
  rewrite idt_init_loop_lookup in Hg.
  rewrite bool_decide_eq_true_2 in Hg by lia.
  destruct (idt s !! i) as [g0|]; [|discriminate].
  injection Hg as <-. unfold gate_of. cbn [gd_type gd_sel gd_off gd_dpl].
  split; [exact Hi|]. repeat (split; [reflexivity|]).
  destruct (Z.eqb_spec (Z.of_nat i) T_BRKPT) as [Hb|Hb];
    destruct (Z.eqb_spec (Z.of_nat i) T_SYSCALL) as [Hs|Hs]; cbn [orb];
    split; intros Hx; auto; try congruence.
  destruct Hx; contradiction.
Qed.

Lemma enable_sep_msrs s :
  msrs (enable_sep s) =
  <[0x176 := to_uint32 sysenter_handler]>
    (<[0x175 := KSTACKTOP]> (<[0x174 := GD_KT]> (msrs s))).
Proof.
  unfold enable_sep, wrmsr; cbn [msrs with_msrs].
  rewrite !Z.shiftl_0_l, !Z.lor_0_l. reflexivity.
Qed.

Lemma enable_sep_frame s :
  idt (enable_sep s) = idt s /\ ts (enable_sep s) = ts s /\
  gdt (enable_sep s) = gdt s /\ tr (enable_sep s) = tr s /\
  idtr (enable_sep s) = idtr s /\ dr6 (enable_sep s) = dr6 s /\
  cr2 (enable_sep s) = cr2 s /\ curenv (enable_sep s) = curenv s /\
  envs (enable_sep s) = envs s /\ kstack_tf (enable_sep s) = kstack_tf s.
Proof. repeat split; reflexivity. Qed.

(** X16: [enable_sep] and [idt_init] can be called in either order and
    [enable_sep] can be called again: the resulting state is the same. *)
Theorem enable_sep_idt_init_commute (s : State) :
  idt_init (enable_sep s) = enable_sep (idt_init s) /\
  enable_sep (enable_sep s) = enable_sep s.
Proof.
  split.
  - destruct (enable_sep_frame s)
      as (Ei & Ets & Eg & Etr & Eid & Ed & Ec & Ecur & Een & Ek).
    destruct (enable_sep_frame (idt_init s))
      as (Ei' & Ets' & Eg' & Etr' & Eid' & Ed' & Ec' & Ecur' & Een' & Ek').
    destruct (idt_init_frame s) as (Fm & Fd & Fc & Fcur & Fe & Fk).
    destruct (idt_init_frame (enable_sep s))
      as (Fm' & Fd' & Fc' & Fcur' & Fe' & Fk').
    destruct (idt_init_regs s) as (Rt & Ri).
    destruct (idt_init_regs (enable_sep s)) as (Rt' & Ri').
    apply State_eq; try congruence.
    + rewrite Ei', !idt_init_idt, Ei. reflexivity.
    + rewrite Ets', !idt_init_ts. reflexivity.
    + rewrite Eg', !idt_init_gdt, Eg. reflexivity.
    + rewrite Fm', !enable_sep_msrs, Fm. reflexivity.
  - destruct (enable_sep_frame (enable_sep s))
      as (Ei & Ets & Eg & Etr & Eid & Ed & Ec & Ecur & Een & Ek).
    apply State_eq; try assumption.
    rewrite (enable_sep_msrs (enable_sep s)), (enable_sep_msrs s).
    apply map_eq. intros k. rewrite !lookup_insert.
    repeat case_decide; reflexivity.
Qed.

End Startup.

(** ** The further properties on concrete inputs *)

Section FurtherConcrete.
#[local] Existing Instance jos_layout.
#[local] Existing Instance jos_collab.

Lemma trapname_cases_witness :
  trapname (-1) = "(unknown trap)"%string /\
  excnames !! 14%nat = Some (trapname 14).
Proof.
  destruct (trapname_cases (-1)) as (_ & Hout); [lia|].
  destruct (trapname_cases 14) as (Hin & _); [lia|].
  split; [apply Hout; lia | apply Hin; lia].
Defined.

Lemma trap_resumes_runnable_witness :
  exists t0 i env s1,
    trap OnStack (running_state 0 (frame_of 48 0x1b sample_regs)) =
      (t0 ++ [Eenv_run (Some i)], Stop (Resumed (Some i)) s1) /\
    curenv s1 = Some i /\ envs s1 !! i = Some env /\
    env_status env = ENV_RUNNABLE.
Proof.
  assert (Hin : Eenv_run (Some 1%nat) ∈
                (trap OnStack
                   (running_state 0 (frame_of 48 0x1b sample_regs))).1).
  { rewrite trap_user_syscall. cbn [fst].
    apply list_elem_of_further, list_elem_of_further, list_elem_of_here. }
  destruct (trap_resumes_runnable _ _ _ Hin)
    as (t0 & i & env & s1 & Ht & _ & _ & Hc & He & Hst & _).
  exists t0, i, env, s1. auto.
Defined.

Lemma trap_returns_only_single_step_witness :
  Z.testbit 1 14 = false /\
  forall e,
    Eenv_run e ∉ [incoming OnStack; Emonitor (InEnv 1)].
Proof.
  destruct (trap_returns_only_single_step _ _ _ _ _
              trap_user_breakpoint_stepping) as (Hb & Hq & _).
  split; [exact Hb | exact Hq].
Defined.

Lemma trap_user_requires_curenv_witness :
  trap OnStack (boot_state (frame_of 48 0x1b sample_regs)) =
    ([Ecprintf "Incoming TRAP frame at %p\n" [Aptr OnStack];
      Epanic "assertion failed: curenv"],
     Stop (Panicked "assertion failed: curenv")
          (boot_state (frame_of 48 0x1b sample_regs))).
Proof.
  exact (trap_user_requires_curenv OnStack (frame_of 48 0x1b sample_regs)
           (boot_state (frame_of 48 0x1b sample_regs))
           eq_refl eq_refl eq_refl).
Defined.

Lemma trap_monitor_pointer_witness :
  (exists rest,
     (trap OnStack (running_state 0 (frame_of 3 0x1b sample_regs))).1 =
       incoming OnStack :: Emonitor (InEnv 1) :: rest) /\
  (exists rest,
     (trap OnStack (running_state 0 (frame_of 1 0x08 sample_regs))).1 =
       incoming OnStack :: Emonitor_ss OnStack :: rest).
Proof.
  destruct (trap_monitor_pointer OnStack (frame_of 3 0x1b sample_regs)
              (running_state 0 (frame_of 3 0x1b sample_regs))
              jos_case_labels eq_refl) as (Hb & _).
  destruct (trap_monitor_pointer OnStack (frame_of 1 0x08 sample_regs)
              (running_state 0 (frame_of 1 0x08 sample_regs))
              jos_case_labels eq_refl) as (_ & Hd).
  destruct (Hb eq_refl) as (Hu & _). destruct (Hd eq_refl) as (_ & Hk).
  split.
  - exact (Hu eq_refl 1%nat (mkEnv zero_frame 0x1001 1) eq_refl eq_refl).
  - apply Hk. vm_compute. discriminate.
Defined.

Lemma page_fault_handler_with_curenv_witness :
  page_fault_handler OnStack (running_state 0 (frame_of 14 0x1b sample_regs)) =
    (Ecprintf "[%08x] user fault va %08x ip %08x\n"
       [Aint 0x1001; Aint 0xdeadbeef; Aint 0x800020]
     :: frame_dump OnStack (frame_of 14 0x1b sample_regs) ++
        [Eenv_destroy (Some 1%nat)],
     Stop Away (running_state 0 (frame_of 14 0x1b sample_regs))).
Proof.
  destruct (page_fault_handler_with_curenv OnStack
              (frame_of 14 0x1b sample_regs) 1%nat
              (mkEnv zero_frame 0x1001 1)
              (running_state 0 (frame_of 14 0x1b sample_regs))
              eq_refl eq_refl eq_refl) as (_ & Hu & _).
  apply Hu. vm_compute. discriminate.
Defined.

Lemma trap_continues_after_destroy_witness :
  @trap jos_layout returning_collab OnStack
     (running_state 0 (frame_of 13 0x1b sample_regs)) =
    (incoming OnStack :: frame_dump (InEnv 1) (frame_of 13 0x1b sample_regs) ++
       [Eenv_destroy (Some 1%nat); Eenv_run (Some 1%nat)],
     Stop (Resumed (Some 1%nat))
       (with_envs
          (alter (set_env_tf (frame_of 13 0x1b sample_regs)) 1%nat
             (envs (running_state 0 (frame_of 13 0x1b sample_regs))))
          (running_state 0 (frame_of 13 0x1b sample_regs)))).
Proof.
  destruct (@trap_continues_after_destroy jos_layout returning_collab
              OnStack (frame_of 13 0x1b sample_regs)
              (running_state 0 (frame_of 13 0x1b sample_regs))
              (with_envs
                 (alter (set_env_tf (frame_of 13 0x1b sample_regs)) 1%nat
                    (envs (running_state 0 (frame_of 13 0x1b sample_regs))))
                 (running_state 0 (frame_of 13 0x1b sample_regs)))
              1%nat (mkEnv zero_frame 0x1001 1) eq_refl eq_refl)
    as (_ & Hr);
    [ first [ reflexivity | vm_compute; discriminate ] .. | ].
  exact (Hr 1%nat (mkEnv (frame_of 13 0x1b sample_regs) 0x1001 1)
            eq_refl eq_refl eq_refl eq_refl).
Defined.

Lemma trap_user_syscall_resumes_witness :
  exists s2,
    trap OnStack (running_state 0 (frame_of 48 0x1b sample_regs)) =
      ([incoming OnStack; Esyscall 1 2 3 4 5 6; Eenv_run (Some 1%nat)],
       Stop (Resumed (Some 1%nat)) s2) /\
    (reg_eax <$> (tf_regs <$> (env_tf <$> envs s2 !! 1%nat))) =
      Some 0xFFFFFFFD.
Proof.
  destruct (trap_user_syscall_resumes OnStack (frame_of 48 0x1b sample_regs)
              (running_state 0 (frame_of 48 0x1b sample_regs))
              (with_envs
                 (alter (set_env_tf (frame_of 48 0x1b sample_regs)) 1%nat
                    (envs (running_state 0 (frame_of 48 0x1b sample_regs))))
                 (running_state 0 (frame_of 48 0x1b sample_regs)))
              1%nat (mkEnv zero_frame 0x1001 1)
              (mkEnv (frame_of 48 0x1b sample_regs) 0x1001 1) (-3)
              jos_case_labels)
    as (s2 & Ht & He & _); [ reflexivity .. | ].
  exists s2. split; [exact Ht|]. rewrite He. reflexivity.
Defined.

Lemma trap_kernel_unhandled_panics_witness :
  trap OnStack (boot_state (frame_of 13 0x08 sample_regs)) =
    (incoming OnStack :: frame_dump OnStack (frame_of 13 0x08 sample_regs) ++
       [Epanic "unhandled trap in kernel"],
     Stop (Panicked "unhandled trap in kernel")
          (boot_state (frame_of 13 0x08 sample_regs))).
Proof.
  destruct (trap_kernel_unhandled_panics OnStack (frame_of 13 0x08 sample_regs)
              (boot_state (frame_of 13 0x08 sample_regs)) eq_refl)
    as (Ht & _); [ first [ reflexivity | vm_compute; discriminate ] .. | ].
  exact Ht.
Defined.

Lemma trap_syscall_not_returning_witness :
  @trap jos_layout exiting_collab OnStack
     (running_state 0 (frame_of 48 0x1b sample_regs)) =
    ([incoming OnStack; Esyscall 1 2 3 4 5 6],
     Stop Away
       (with_envs
          (alter (set_env_tf (frame_of 48 0x1b sample_regs)) 1%nat
             (envs (running_state 0 (frame_of 48 0x1b sample_regs))))
          (running_state 0 (frame_of 48 0x1b sample_regs)))).
Proof.
  destruct (@trap_syscall_not_returning jos_layout exiting_collab
              OnStack (frame_of 48 0x1b sample_regs)
              (running_state 0 (frame_of 48 0x1b sample_regs))
              1%nat (mkEnv zero_frame 0x1001 1)
              jos_case_labels)
    as (Ht & _); [ reflexivity .. | ].
  exact Ht.
Defined.

Lemma idt_init_tss_witness :
  gdt (idt_init (boot_state zero_frame)) !! 5%nat =
    Some (mkSegdesc 0x9 0xf0118800 104 0 0) /\
  gdt (idt_init (boot_state zero_frame)) !! 1%nat =
    Some (mkSegdesc 0 0 0 0 0).
Proof.
  destruct (idt_init_tss (boot_state zero_frame)) as (Ht & Ho & _).
  { vm_compute. lia. }
  split; [exact Ht|].
  exact (Ho 1%nat ltac:(vm_compute; discriminate)).
Defined.

Lemma idt_init_overwrites_witness :
  idt (idt_init stale_state) = idt (idt_init (boot_state zero_frame)).
Proof.
  exact (idt_init_overwrites stale_state (boot_state zero_frame)
           eq_refl eq_refl).
Defined.

Lemma idt_init_user_gates_witness :
  (48 < 256)%nat /\
  (gd_dpl (mkGatedesc 0x08 0xf01031e0 0xE 3) = DPL_USER <->
   Z.of_nat 48 = T_BRKPT \/ Z.of_nat 48 = T_SYSCALL).
Proof.
  destruct (idt_init_user_gates (boot_state zero_frame) 48%nat
              (mkGatedesc 0x08 0xf01031e0 0xE 3) eq_refl)
    as (Hi & _ & _ & _ & Hiff).
  - vm_compute. discriminate.
  - vm_compute. reflexivity.
  - split; [exact Hi | exact Hiff].
Defined.

End FurtherConcrete.
